(** * The face-verification HTTP service ([Backend/face_recognition_api.py])

    A shallow embedding of the two Flask handlers, [verify_faces] and
    [health], together with the parts of Python they rely on:

    - [str] values are Rocq strings, read as the UTF-8 bytes of the text
      (every operation used by the handler -- [startswith], [split(',')],
      [in], concatenation, the ASCII test of [b64decode] -- acts the same
      way on the UTF-8 bytes as on the code points);
    - [float] values are IEEE binary64 numbers ([spec_float] at precision
      53), with Python's [ZeroDivisionError], [min], [max] and [round];
    - the parsed request body and the dictionaries given to [jsonify] are
      values of [json], dictionaries being finite maps;
    - exceptions are values carried by [Raise]; the handler runs in a state
      and exception monad over [World], which holds the temporary files and
      the log of calls to the verification capability;
    - everything the handler cannot decide by itself (the request, the
      outcome of file creation, writing and removal, the verdict of
      [DeepFace.verify], [app.debug]) is read from an [Env]. *)

From Stdlib Require Import ZArith String Ascii List Bool Lia.
From Stdlib Require Import Strings.Byte.
From Stdlib Require Import DecimalString.
From Stdlib Require Import Floats.SpecFloat.
From stdpp Require Import gmap strings.
Import ListNotations.

#[local] Set Warnings "-register-all".
#[local] Open Scope string_scope.
#[local] Open Scope Z_scope.

(** ** Exceptions and results *)

(** A raised [Exception]: its class name and [str(e)]. *)
Record exn : Type := Exception { exn_class : string; exn_str : string }.

Inductive result (A : Type) : Type :=
  | Ok (a : A)
  | Raise (e : exn).
Arguments Ok {A} a.
Arguments Raise {A} e.

Definition raises {A} (r : result A) : bool :=
  match r with Ok _ => false | Raise _ => true end.

#[global] Instance result_ret : MRet result := fun A a => Ok a.
#[global] Instance result_bind : MBind result := fun A B k r =>
  match r with
  | Ok a => k a
  | Raise e => Raise e
  end.

(** ** Python [str] operations *)

Module PyStr.

(** [s.startswith(p)] *)
Definition startswith (p s : string) : bool := String.prefix p s.

(** [needle in hay] *)
Fixpoint contains (needle hay : string) : bool :=
  String.prefix needle hay
  || match hay with
     | EmptyString => false
     | String _ rest => contains needle rest
     end.

Definition is_comma (c : ascii) : bool := Ascii.eqb c ","%char.

(** [s.split(',')]: the pieces between the commas, at least one piece. *)
Fixpoint split_comma (s : string) : list string :=
  match s with
  | EmptyString => [EmptyString]
  | String c rest =>
      if is_comma c then EmptyString :: split_comma rest
      else match split_comma rest with
           | piece :: pieces => String c piece :: pieces
           | [] => [String c EmptyString]
           end
  end.

(** [l[i]] on a list, with its [IndexError]. *)
Definition index {A} (l : list A) (i : nat) : result A :=
  match nth_error l i with
  | Some x => Ok x
  | None => Raise (Exception "IndexError" "list index out of range")
  end.

Fixpoint has_comma (s : string) : bool :=
  match s with
  | EmptyString => false
  | String c rest => is_comma c || has_comma rest
  end.

Fixpoint is_ascii (s : string) : bool :=
  match s with
  | EmptyString => true
  | String c rest => (Z.of_N (N_of_ascii c) <? 128) && is_ascii rest
  end.

(** [str(n)] for a non-negative integer. *)
Definition of_Z (n : Z) : string := NilZero.string_of_uint (N.to_uint (Z.to_N n)).

End PyStr.

(** ** Python [float]: IEEE binary64 *)

Module PyFloat.

Definition prec : Z := 53.
Definition emax : Z := 1024.

Definition zero : spec_float := S754_zero false.
Definition one : spec_float := S754_finite false 4503599627370496 (-52).
Definition ten_thousand : spec_float := S754_finite false 10000 0.

Definition is_zero (x : spec_float) : bool :=
  match x with S754_zero _ => true | _ => false end.

(** Comparison of two finite non-zero numbers by their exact values
    [(-1)^s * m * 2^e], brought to the smaller exponent. *)
Definition finite_compare (s1 : bool) (m1 : positive) (e1 : Z)
                          (s2 : bool) (m2 : positive) (e2 : Z) : comparison :=
  let e := Z.min e1 e2 in
  Z.compare (cond_Zopp s1 (Zpos m1) * 2 ^ (e1 - e))
            (cond_Zopp s2 (Zpos m2) * 2 ^ (e2 - e)).

(** IEEE comparison: [None] when either side is a NaN; the two zeros are
    equal. *)
Definition compare (x y : spec_float) : option comparison :=
  match x, y with
  | S754_nan, _ | _, S754_nan => None
  | S754_infinity s1, S754_infinity s2 =>
      Some (match s1, s2 with
            | true, false => Lt
            | false, true => Gt
            | _, _ => Eq
            end)
  | S754_infinity s, _ => Some (if s then Lt else Gt)
  | _, S754_infinity s => Some (if s then Gt else Lt)
  | S754_zero _, S754_zero _ => Some Eq
  | S754_zero _, S754_finite s _ _ => Some (if s then Gt else Lt)
  | S754_finite s _ _, S754_zero _ => Some (if s then Lt else Gt)
  | S754_finite s1 m1 e1, S754_finite s2 m2 e2 =>
      Some (finite_compare s1 m1 e1 s2 m2 e2)
  end.

(** [x < y], [x > y], [x <= y] *)
Definition ltb (x y : spec_float) : bool :=
  match compare x y with Some Lt => true | _ => false end.
Definition gtb (x y : spec_float) : bool := ltb y x.
Definition leb (x y : spec_float) : bool :=
  match compare x y with Some (Lt | Eq) => true | _ => false end.

(** [x / y]: Python raises on a zero divisor instead of returning an
    infinity or a NaN. *)
Definition div (x y : spec_float) : result spec_float :=
  if is_zero y then Raise (Exception "ZeroDivisionError" "float division by zero")
  else Ok (SFdiv prec emax x y).

(** [x - y] *)
Definition sub (x y : spec_float) : spec_float := SFsub prec emax x y.

(** The builtins [min(a, b)] and [max(a, b)] keep the first argument
    unless the second one compares strictly below (above) it. *)
Definition min (a b : spec_float) : spec_float := if ltb b a then b else a.
Definition max (a b : spec_float) : spec_float := if gtb b a then b else a.

(** The integer nearest to [n / d] for [d > 0], ties going to the even
    one. *)
Definition round_half_even (n d : Z) : Z :=
  let q := n / d in
  match Z.compare (2 * (n mod d)) d with
  | Lt => q
  | Gt => q + 1
  | Eq => if Z.even q then q else q + 1
  end.

(** [|x| * 10^4] rounded to an integer, for [|x| = m * 2^e]. *)
Definition scaled4 (m : positive) (e : Z) : Z :=
  if 0 <=? e then Zpos m * 2 ^ e * 10000
  else round_half_even (Zpos m * 10000) (2 ^ (- e)).

(** The binary64 number nearest to the decimal [(-1)^s * q / 10^4]. *)
Definition decimal4 (s : bool) (q : positive) : spec_float :=
  SFdiv prec emax (S754_finite s q 0) ten_thousand.

(** [round(x, 4)]: NaNs, infinities and zeros round to themselves; a
    finite [x] goes to the decimal with four fractional digits nearest
    to its exact value (ties to even), and that decimal to the nearest
    binary64 number. *)
Definition round4 (x : spec_float) : spec_float :=
  match x with
  | S754_finite s m e =>
      match scaled4 m e with
      | Zpos q => decimal4 s q
      | _ => S754_zero s
      end
  | _ => x
  end.

(** [0.0 <= x <= 1.0] *)
Definition in_unit_interval (x : spec_float) : bool := leb zero x && leb x one.

End PyFloat.

(** ** Values exchanged as JSON *)

(** What [request.json] yields and what [jsonify] takes: [None], [bool],
    [int], [float], [str], [list] and [dict] with string keys. *)
Inductive json : Type :=
  | JNull
  | JBool (b : bool)
  | JInt (z : Z)
  | JFloat (f : spec_float)
  | JStr (s : string)
  | JArr (l : list json)
  | JObj (d : gmap string json).

Module Py.

Definition type_name (v : json) : string :=
  match v with
  | JNull => "NoneType"
  | JBool _ => "bool"
  | JInt _ => "int"
  | JFloat _ => "float"
  | JStr _ => "str"
  | JArr _ => "list"
  | JObj _ => "dict"
  end.

Definition is_str (v : json) : bool :=
  match v with JStr _ => true | _ => false end.

(** Truth value of an object, as tested by [not data]. *)
Definition truthy (v : json) : bool :=
  match v with
  | JNull => false
  | JBool b => b
  | JInt z => negb (z =? 0)
  | JFloat f => negb (PyFloat.is_zero f)
  | JStr s => negb (String.eqb s "")
  | JArr l => match l with [] => false | _ :: _ => true end
  | JObj d => negb (Nat.eqb (size d) 0)
  end.

Definition eq_str (k : string) (v : json) : bool :=
  match v with JStr s => String.eqb s k | _ => false end.

(** [k in v] for a string [k]: key of a dict, element of a list,
    substring of a string; the other types are not containers. *)
Definition contains (k : string) (v : json) : result bool :=
  match v with
  | JObj d => Ok (match d !! k with Some _ => true | None => false end)
  | JArr l => Ok (existsb (eq_str k) l)
  | JStr s => Ok (PyStr.contains k s)
  | _ => Raise (Exception "TypeError"
                  ("argument of type '" +:+ type_name v +:+ "' is not iterable"))
  end.

(** [v[k]] for a string [k]. *)
Definition getitem (v : json) (k : string) : result json :=
  match v with
  | JObj d =>
      match d !! k with
      | Some x => Ok x
      | None => Raise (Exception "KeyError" ("'" +:+ k +:+ "'"))
      end
  | JArr _ =>
      Raise (Exception "TypeError" "list indices must be integers or slices, not str")
  | JStr _ =>
      Raise (Exception "TypeError" "string indices must be integers, not 'str'")
  | _ =>
      Raise (Exception "TypeError"
               ("'" +:+ type_name v +:+ "' object is not subscriptable"))
  end.

Definition no_attribute (v : json) (name : string) : exn :=
  Exception "AttributeError"
    ("'" +:+ type_name v +:+ "' object has no attribute '" +:+ name +:+ "'").

(** [v.startswith(p)] and [v.split(',')]: only [str] has the methods. *)
Definition startswith (v : json) (p : string) : result bool :=
  match v with
  | JStr s => Ok (PyStr.startswith p s)
  | _ => Raise (no_attribute v "startswith")
  end.

Definition split_comma (v : json) : result (list string) :=
  match v with
  | JStr s => Ok (PyStr.split_comma s)
  | _ => Raise (no_attribute v "split")
  end.

End Py.

(** ** [base64.b64decode] *)

Module Base64.

Definition byte_of_Z (z : Z) : byte :=
  match Byte.of_N (Z.to_N (z mod 256)) with
  | Some b => b
  | None => x00
  end.

(** Position of a character in the base64 alphabet [A-Za-z0-9+/]. *)
Definition value_of (c : ascii) : option Z :=
  let n := Z.of_N (N_of_ascii c) in
  if (65 <=? n) && (n <=? 90) then Some (n - 65)
  else if (97 <=? n) && (n <=? 122) then Some (n - 71)
  else if (48 <=? n) && (n <=? 57) then Some (n + 4)
  else if n =? 43 then Some 62
  else if n =? 47 then Some 63
  else None.

Definition is_pad (c : ascii) : bool := Ascii.eqb c "="%char.

Definition error (msg : string) : exn := Exception "binascii.Error" msg.

(** The loop of [binascii.a2b_base64] in its default, non-strict mode:
    characters outside the alphabet are skipped, a pad sequence that
    completes a quad ends the decoding, and leftover characters of an
    incomplete quad are an error. [quad_pos] counts the characters of the
    current quad, [leftchar] holds its pending bits, [pads] the pad
    characters seen since the last data character, [out] the bytes
    produced so far. *)
Fixpoint a2b_base64 (data : string) (quad_pos leftchar pads : Z)
                    (out : list byte) : result (list byte) :=
  match data with
  | EmptyString =>
      if quad_pos =? 0 then Ok out
      else if quad_pos =? 1 then
        Raise (error ("Invalid base64-encoded string: number of data characters ("
                      +:+ PyStr.of_Z (Z.of_nat (length out) / 3 * 4 + 1)
                      +:+ ") cannot be 1 more than a multiple of 4"))
      else Raise (error "Incorrect padding")
  | String c rest =>
      if is_pad c then
        if 2 <=? quad_pos then
          if 4 <=? quad_pos + (pads + 1) then Ok out
          else a2b_base64 rest quad_pos leftchar (pads + 1) out
        else a2b_base64 rest quad_pos leftchar pads out
      else
        match value_of c with
        | None => a2b_base64 rest quad_pos leftchar pads out
        | Some v =>
            if quad_pos =? 0 then a2b_base64 rest 1 v 0 out
            else if quad_pos =? 1 then
              a2b_base64 rest 2 (Z.land v 15) 0
                (out ++ [byte_of_Z (Z.lor (Z.shiftl leftchar 2) (Z.shiftr v 4))])
            else if quad_pos =? 2 then
              a2b_base64 rest 3 (Z.land v 3) 0
                (out ++ [byte_of_Z (Z.lor (Z.shiftl leftchar 4) (Z.shiftr v 2))])
            else
              a2b_base64 rest 0 0 0
                (out ++ [byte_of_Z (Z.lor (Z.shiftl leftchar 6) v)])
        end
  end.

(** [base64.b64decode(s)] on a [str], with [validate=False]: the text
    must be ASCII, then it is handed to [a2b_base64]. *)
Definition b64decode (s : string) : result (list byte) :=
  if PyStr.is_ascii s then a2b_base64 s 0 0 0 []
  else Raise (Exception "ValueError"
                "string argument should contain only ASCII characters").

(** [base64.b64decode(v)] on a value of any type. *)
Definition decode (v : json) : result (list byte) :=
  match v with
  | JStr s => b64decode s
  | _ => Raise (Exception "TypeError"
                  ("argument should be a bytes-like object or ASCII string, not '"
                   +:+ Py.type_name v +:+ "'"))
  end.

End Base64.

(** ** The world of a request and what the handler reads from outside *)

(** The temporary directory (path to content) and the calls made to the
    verification capability (the two paths of each call). *)
Record World : Type := mkWorld {
  files : gmap string (list byte);
  verify_calls : list (string * string)
}.

Definition set_files (fs : gmap string (list byte)) (w : World) : World :=
  mkWorld fs (verify_calls w).

(** The dictionary returned by [DeepFace.verify]. *)
Record Verdict : Type := mkVerdict {
  verified : bool;
  distance : spec_float;
  threshold : spec_float
}.

Record Env : Type := mkEnv {
  (** [request.json]: the parsed body, or the exception Flask raises *)
  request_json : result json;
  (** [app.debug] *)
  app_debug : bool;
  (** [traceback.format_exc()] for the exception being handled *)
  format_exc : exn -> string;
  (** name given by the first [NamedTemporaryFile], or its failure *)
  tmp_ref : result string;
  (** failure of writing and closing the first file, if any *)
  write_ref : option exn;
  (** the same for the second file *)
  tmp_today : result string;
  write_today : option exn;
  (** [DeepFace.verify(img1_path, img2_path, model_name='VGG-Face',
      enforce_detection=True, distance_metric='cosine')] on the files
      present *)
  deepface_verify : gmap string (list byte) -> string -> string -> result Verdict;
  (** failure of [os.unlink] on an existing path, if any *)
  unlink_error : string -> option exn
}.

(** A Flask response: status code and the dictionary given to [jsonify]. *)
Record Response : Type := mkResponse {
  status : Z;
  body : gmap string json
}.

(** ** State and exception monad *)

Definition M (A : Type) : Type := World -> result A * World.

#[global] Instance M_ret : MRet M := fun A a w => (Ok a, w).
#[global] Instance M_bind : MBind M := fun A B k m w =>
  match m w with
  | (Ok a, w') => k a w'
  | (Raise e, w') => (Raise e, w')
  end.

Definition lift {A} (r : result A) : M A := fun w => (r, w).

(** [try: body except Exception as e: handler(e)] *)
Definition try_except {A} (body : M A) (handler : exn -> M A) : M A :=
  fun w =>
    match body w with
    | (Ok a, w') => (Ok a, w')
    | (Raise e, w') => handler e w'
    end.

(** [try: body finally: fin]: [fin] runs on both exits of [body]; an
    exception leaving [fin] replaces the outcome of [body]. *)
Definition try_finally {A} (body : M A) (fin : M unit) : M A :=
  fun w =>
    match body w with
    | (r, w') =>
        match fin w' with
        | (Ok _, w'') => (r, w'')
        | (Raise e, w'') => (Raise e, w'')
        end
    end.

(** [try: body except: pass] *)
Definition try_pass (body : M unit) : M unit :=
  fun w => match body w with (_, w') => (Ok tt, w') end.

(** ** File system and capability operations *)

(** [with tempfile.NamedTemporaryFile(delete=False, suffix='.jpg') as f:
    f.write(data); path = f.name]. The file exists as soon as it is
    created and stays when writing fails. *)
Definition named_temporary_file (name : result string) (write_error : option exn)
                                (data : list byte) : M string :=
  fun w =>
    match name with
    | Raise e => (Raise e, w)
    | Ok path =>
        match write_error with
        | Some e => (Raise e, set_files (<[path := []]> (files w)) w)
        | None => (Ok path, set_files (<[path := data]> (files w)) w)
        end
    end.

(** [os.unlink(path)] *)
Definition unlink (env : Env) (path : string) : M unit :=
  fun w =>
    match files w !! path with
    | None =>
        (Raise (Exception "FileNotFoundError"
                  ("[Errno 2] No such file or directory: '" +:+ path +:+ "'")), w)
    | Some _ =>
        match unlink_error env path with
        | Some e => (Raise e, w)
        | None => (Ok tt, set_files (delete path (files w)) w)
        end
    end.

(** The call to [DeepFace.verify], recorded in the world. *)
Definition call_deepface (env : Env) (img1_path img2_path : string) : M Verdict :=
  fun w =>
    (deepface_verify env (files w) img1_path img2_path,
     mkWorld (files w) (verify_calls w ++ [(img1_path, img2_path)])).

(** ** The handlers *)

Definition jsonify (d : gmap string json) (code : Z) : Response := mkResponse code d.

Definition error_body (msg : string) : gmap string json :=
  {[ "match" := JBool false;
     "confidence" := JFloat PyFloat.zero;
     "error" := JStr msg ]}.

(** [not data or 'reference_photo' not in data or 'today_photo' not in data] *)
Definition missing_fields (data : json) : result bool :=
  if negb (Py.truthy data) then Ok true
  else
    has_ref ← Py.contains "reference_photo" data;
    if negb has_ref then Ok true
    else
      has_today ← Py.contains "today_photo" data;
      Ok (negb has_today).

(** [if photo.startswith('data:'): photo = photo.split(',')[1]] *)
Definition strip_data_url (photo : json) : result json :=
  is_data_url ← Py.startswith photo "data:";
  if is_data_url : bool then
    pieces ← Py.split_comma photo;
    piece ← PyStr.index pieces 1;
    Ok (JStr piece)
  else Ok photo.

(** The body of the inner [try] that decodes the two images: both prefixes
    are handled first, then both payloads are decoded. *)
Definition decode_images (reference_photo today_photo : json)
  : result (list byte * list byte) :=
  reference_photo ← strip_data_url reference_photo;
  today_photo ← strip_data_url today_photo;
  ref_img_data ← Base64.decode reference_photo;
  today_img_data ← Base64.decode today_photo;
  Ok (ref_img_data, today_img_data).

(** [max(0.0, min(1.0, 1.0 - q))] *)
Definition clamp_confidence (q : spec_float) : spec_float :=
  PyFloat.max PyFloat.zero (PyFloat.min PyFloat.one (PyFloat.sub PyFloat.one q)).

(** The body of the [try] around the capability. *)
Definition verify_and_score (env : Env) (ref_path today_path : string) : M Response :=
  result ← call_deepface env ref_path today_path;
  let is_match := verified result in
  let distance := distance result in
  let threshold := threshold result in
  q ← lift (PyFloat.div distance threshold);
  let confidence := clamp_confidence q in
  mret (jsonify {[ "match" := JBool is_match;
                  "confidence" := JFloat (PyFloat.round4 confidence);
                  "distance" := JFloat (PyFloat.round4 distance);
                  "threshold" := JFloat (PyFloat.round4 threshold) ]} 200).

Definition no_face_message : string := "Face could not be detected in one or both images".

(** The [except Exception as e] clause of that [try]. *)
Definition capability_failure (e : exn) : M Response :=
  let error_msg := exn_str e in
  if PyStr.contains "Face could not be detected" error_msg
     || PyStr.contains "No face detected" error_msg
  then mret (jsonify (error_body no_face_message) 400)
  else mret (jsonify (error_body ("Face recognition error: " +:+ error_msg)) 500).

(** The [finally] clause: both removals sit in one [try ... except: pass]. *)
Definition cleanup (env : Env) (ref_path today_path : string) : M unit :=
  try_pass (unlink env ref_path;; unlink env today_path).

(** The body of the outer [try] of [verify_faces]. *)
Definition verify_faces_body (env : Env) : M Response :=
  data ← lift (request_json env);
  missing ← lift (missing_fields data);
  if missing : bool then
    mret (jsonify (error_body "Missing reference_photo or today_photo") 400)
  else
    reference_photo ← lift (Py.getitem data "reference_photo");
    today_photo ← lift (Py.getitem data "today_photo");
    match decode_images reference_photo today_photo with
    | Raise e =>
        mret (jsonify (error_body ("Invalid base64 image data: " +:+ exn_str e)) 400)
    | Ok (ref_img_data, today_img_data) =>
        ref_path ← named_temporary_file (tmp_ref env) (write_ref env) ref_img_data;
        today_path ← named_temporary_file (tmp_today env) (write_today env) today_img_data;
        try_finally
          (try_except (verify_and_score env ref_path today_path) capability_failure)
          (cleanup env ref_path today_path)
    end.

(** The response of the outer [except Exception as e]. *)
Definition server_error (env : Env) (e : exn) : Response :=
  jsonify {[ "match" := JBool false;
             "confidence" := JFloat PyFloat.zero;
             "error" := JStr ("Server error: " +:+ exn_str e);
             "traceback" := if app_debug env then JStr (format_exc env e) else JNull ]}
          500.

(** [POST /verify] *)
Definition verify_faces (env : Env) (w : World) : Response * World :=
  match verify_faces_body env w with
  | (Ok response, w') => (response, w')
  | (Raise e, w') => (server_error env e, w')
  end.

(** [GET /health] *)
Definition health (w : World) : Response * World :=
  (jsonify {[ "status" := JStr "ok"; "service" := JStr "face-recognition-api" ]} 200, w).

(** ** Notions used to state the properties *)

Module Spec.

(** The payload holds field [k]: a key of an object, and, for the other
    containers on which Python's [in] is defined, an element of an array
    or a substring of a string. *)
Definition holds (data : json) (k : string) : bool :=
  match data with
  | JObj d => bool_decide (is_Some (d !! k))
  | JArr l => existsb (Py.eq_str k) l
  | JStr s => PyStr.contains k s
  | _ => false
  end.

(** The payload is an object that has key [k]. *)
Definition has_key (data : json) (k : string) : bool :=
  match data with
  | JObj d => bool_decide (is_Some (d !! k))
  | _ => false
  end.

Definition is_container (data : json) : bool :=
  match data with
  | JObj _ | JArr _ | JStr _ => true
  | _ => false
  end.

(** Everything after the first comma of [s]; the empty string when [s]
    has no comma. *)
Fixpoint after_first_comma (s : string) : string :=
  match s with
  | EmptyString => EmptyString
  | String c rest => if PyStr.is_comma c then rest else after_first_comma rest
  end.

(** Everything before the first comma of [s]; all of [s] when it has no
    comma. *)
Fixpoint before_first_comma (s : string) : string :=
  match s with
  | EmptyString => EmptyString
  | String c rest =>
      if PyStr.is_comma c then EmptyString else String c (before_first_comma rest)
  end.

(** Valid base64 text: only characters of the alphabet, closed by at most
    two pad characters, the length a multiple of four. *)
Fixpoint alphabet_then_pads (s : string) : bool :=
  match s with
  | EmptyString => true
  | String c rest =>
      match Base64.value_of c with
      | Some _ => alphabet_then_pads rest
      | None =>
          Base64.is_pad c
          && (String.eqb rest "" || String.eqb rest "=")
      end
  end.

Definition valid_base64 (s : string) : bool :=
  alphabet_then_pads s && (Z.of_nat (String.length s) mod 4 =? 0).

(** The positive numbers of at most [bits] binary digits. *)
Fixpoint positives_below (bits : nat) : list positive :=
  match bits with
  | O => []
  | S k => 1%positive :: flat_map (fun p => [p~0; p~1]%positive) (positives_below k)
  end.

(** Every decimal [q / 10^4] with [1 <= q <= 10^4] becomes a binary64
    number of the unit interval. *)
Definition fraction_in_unit_interval (q : positive) : bool :=
  (10000 <? Zpos q) || PyFloat.in_unit_interval (PyFloat.decimal4 false q).

(** The request is a JSON object whose two image fields are [r] and [t]. *)
Definition fields (env : Env) (r t : json) : Prop :=
  exists d, request_json env = Ok (JObj d)
            /\ d !! "reference_photo" = Some r
            /\ d !! "today_photo" = Some t.

(** The request passes validation and both images are staged: the fields
    decode to [img1] and [img2], which are written to the fresh files
    [p1] and [p2]. *)
Definition staged (env : Env) (img1 img2 : list byte) (p1 p2 : string) : Prop :=
  exists r t, fields env r t
              /\ decode_images r t = Ok (img1, img2)
              /\ tmp_ref env = Ok p1 /\ write_ref env = None
              /\ tmp_today env = Ok p2 /\ write_today env = None.

(** The temporary directory once both images are staged. *)
Definition staged_files (w : World) (img1 img2 : list byte) (p1 p2 : string)
  : gmap string (list byte) :=
  <[p2 := img2]> (<[p1 := img1]> (files w)).


End Spec.

(** ** Sample requests and environments *)

Module Sample.

Definition world : World := mkWorld ∅ [].

Definition request (r t : json) : json :=
  JObj {[ "reference_photo" := r; "today_photo" := t ]}.

Definition ref_path : string := "/tmp/tmpk3x9ref.jpg".
Definition today_path : string := "/tmp/tmpq7t2today.jpg".

(** An environment in which files can be created, written and removed,
    and the capability answers [verdict]. *)
Definition env (req : result json) (verdict : result Verdict) (debug : bool) : Env :=
  mkEnv req debug (fun e => "Traceback (most recent call last): " +:+ exn_class e)
        (Ok ref_path) None (Ok today_path) None
        (fun _ _ _ => verdict) (fun _ => None).

(** 0.25 and 0.5 *)
Definition quarter : spec_float := S754_finite false 4503599627370496 (-54).
Definition half : spec_float := S754_finite false 4503599627370496 (-53).

Definition same_person : Verdict := mkVerdict true quarter half.
Definition zero_threshold : Verdict := mkVerdict false quarter PyFloat.zero.

(** "QUJD" and "REVG" are the base64 texts of "ABC" and "DEF". *)
Definition good_request : json :=
  request (JStr "data:image/jpeg;base64,QUJD") (JStr "REVG").

Definition no_disk_space : exn :=
  Exception "OSError" "[Errno 28] No space left on device".

Definition no_face : exn :=
  Exception "ValueError"
    "Face could not be detected in /tmp/tmpk3x9ref.jpg.Please confirm that the picture is a face photo or consider to set enforce_detection param to False.".

Definition model_missing : exn :=
  Exception "ValueError" "Invalid model_name passed - VGG-Face".

Definition env_zero_threshold : Env :=
  env (Ok good_request) (Ok zero_threshold) false.

(** A request without a JSON body: [request.json] raises. *)
Definition unsupported_media_type : exn :=
  Exception "UnsupportedMediaType"
    "415 Unsupported Media Type: Did not attempt to load JSON data because the request Content-Type was not 'application/json'.".

Definition env_no_body : Env := env (Raise unsupported_media_type) (Ok same_person) false.

(** An object with [reference_photo] only, which is a number. *)
Definition env_only_reference : Env :=
  env (Ok (JObj {[ "reference_photo" := JInt 5 ]})) (Ok same_person) false.


(** The body [true]: valid JSON, but not an object. *)
Definition env_true_payload : Env := env (Ok (JBool true)) (Ok same_person) false.

(** As [env], but creating the second temporary file fails. *)
Definition env_second_file_fails (req : result json) (verdict : result Verdict) : Env :=
  mkEnv req false (fun e => "Traceback (most recent call last): " +:+ exn_class e)
        (Ok ref_path) None (Raise no_disk_space) None
        (fun _ _ _ => verdict) (fun _ => None).

(** As [env], but removing the first temporary file fails. *)
Definition env_unlink_fails (req : result json) (verdict : result Verdict) : Env :=
  mkEnv req false (fun e => "Traceback (most recent call last): " +:+ exn_class e)
        (Ok ref_path) None (Ok today_path) None
        (fun _ _ _ => verdict)
        (fun p => if String.eqb p ref_path
                  then Some (Exception "PermissionError"
                               ("[Errno 13] Permission denied: '" +:+ p +:+ "'"))
                  else None).

End Sample.

(** ** Notions for the properties of the whole handler *)

Module Outcome.

(** An error response: match false, confidence 0.0 and an error text. *)
Definition is_error (resp : Response) : Prop :=
  body resp !! "match" = Some (JBool false)
  /\ body resp !! "confidence" = Some (JFloat PyFloat.zero)
  /\ exists msg : string, body resp !! "error" = Some (JStr msg).

(** A success response: exactly the four entries match, confidence,
    distance and threshold, the confidence lying in the unit interval. *)
Definition is_success (resp : Response) : Prop :=
  exists (m : bool) (c d t : spec_float),
    body resp = {[ "match" := JBool m;
                   "confidence" := JFloat c;
                   "distance" := JFloat d;
                   "threshold" := JFloat t ]}
    /\ PyFloat.in_unit_interval c = true.

(** The same environment with another behaviour of [os.unlink]. *)
Definition with_unlink_error (env : Env) (failure : string -> option exn) : Env :=
  mkEnv (request_json env) (app_debug env) (format_exc env)
        (tmp_ref env) (write_ref env) (tmp_today env) (write_today env)
        (deepface_verify env) failure.

(** The text without the characters that are neither in the base64
    alphabet nor the pad character. *)
Fixpoint base64_characters (s : string) : string :=
  match s with
  | EmptyString => EmptyString
  | String c rest =>
      if Base64.is_pad c then String c (base64_characters rest)
      else match Base64.value_of c with
           | Some _ => String c (base64_characters rest)
           | None => base64_characters rest
           end
  end.

(** The 400 response of the decode branch for failure [e]. *)
Definition invalid_image (e : exn) : Response :=
  jsonify (error_body ("Invalid base64 image data: " +:+ exn_str e)) 400.

(** The 200 response built from verdict [v]. *)
Definition success_of (v : Verdict) : Response :=
  jsonify {[ "match" := JBool (verified v);
             "confidence" :=
               JFloat (PyFloat.round4
                         (clamp_confidence
                            (SFdiv PyFloat.prec PyFloat.emax (distance v) (threshold v))));
             "distance" := JFloat (PyFloat.round4 (distance v));
             "threshold" := JFloat (PyFloat.round4 (threshold v)) ]} 200.

(** The binary64 number nearest to [n / 10^4], for [0 <= n]. *)
Definition ten_thousandths (n : Z) : spec_float :=
  match n with
  | Zpos p => PyFloat.decimal4 false p
  | _ => PyFloat.zero
  end.

End Outcome.

(** * Properties *)

(** ** Running the monad *)

Lemma run_bind_lift_ok {A B} (a : A) (k : A -> M B) (w : World) :
  (lift (Ok a) ≫= k) w = k a w.
Proof. reflexivity. Qed.

Lemma run_bind_lift_raise {A B} (e : exn) (k : A -> M B) (w : World) :
  (lift (Raise e) ≫= k) w = (Raise e, w).
Proof. reflexivity. Qed.

Lemma run_bind {A B} (m : M A) (k : A -> M B) (w : World) :
  (m ≫= k) w = match m w with
               | (Ok a, w') => k a w'
               | (Raise e, w') => (Raise e, w')
               end.
Proof. reflexivity. Qed.

(** ** Validation of the payload *)

Lemma size_lookup_Some (d : gmap string json) (k : string) (v : json) :
  d !! k = Some v -> Nat.eqb (size d) 0 = false.
Proof.
  intros Hk. apply Nat.eqb_neq. intros Hsize.
  apply map_size_empty_iff in Hsize. subst d.
  rewrite lookup_empty in Hk. discriminate.
Qed.

Lemma missing_fields_object (d : gmap string json) (r t : json) :
  d !! "reference_photo" = Some r -> d !! "today_photo" = Some t ->
  missing_fields (JObj d) = Ok false.
Proof.
  intros Hr Ht. unfold missing_fields. cbn [Py.truthy].
  rewrite (size_lookup_Some d _ r Hr). cbn.
  rewrite Hr. cbn. rewrite Ht. reflexivity.
Qed.

(** With both fields present the handler goes on to decode them. *)
Lemma body_with_fields (env : Env) (r t : json) (w : World) :
  Spec.fields env r t ->
  verify_faces_body env w =
    match decode_images r t with
    | Raise e =>
        (Ok (jsonify (error_body ("Invalid base64 image data: " +:+ exn_str e)) 400), w)
    | Ok (ref_img_data, today_img_data) =>
        (ref_path ← named_temporary_file (tmp_ref env) (write_ref env) ref_img_data;
         today_path ← named_temporary_file (tmp_today env) (write_today env) today_img_data;
         try_finally
           (try_except (verify_and_score env ref_path today_path) capability_failure)
           (cleanup env ref_path today_path)) w
    end.
Proof.
  intros (d & Hreq & Hr & Ht). unfold verify_faces_body.
  rewrite Hreq, run_bind_lift_ok.
  rewrite (missing_fields_object d r t Hr Ht), run_bind_lift_ok.
  cbn [Py.getitem]. rewrite Hr, run_bind_lift_ok, Ht, run_bind_lift_ok.
  destruct (decode_images r t) as [[i1 i2]|e]; reflexivity.
Qed.

(** Once both images are staged, what remains is the guarded call of the
    capability followed by the removal of the two files. *)
Lemma body_when_staged (env : Env) (img1 img2 : list byte) (p1 p2 : string) (w : World) :
  Spec.staged env img1 img2 p1 p2 ->
  verify_faces_body env w =
    try_finally
      (try_except (verify_and_score env p1 p2) capability_failure)
      (cleanup env p1 p2)
      (mkWorld (Spec.staged_files w img1 img2 p1 p2) (verify_calls w)).
Proof.
  intros (r & t & Hf & Hdec & Hp1 & Hw1 & Hp2 & Hw2).
  rewrite (body_with_fields env r t w Hf), Hdec.
  rewrite run_bind. unfold named_temporary_file at 1. rewrite Hp1, Hw1.
  rewrite run_bind. unfold named_temporary_file at 1. rewrite Hp2, Hw2.
  reflexivity.
Qed.

(** The removal of the temporary files never raises. *)
Lemma cleanup_never_raises (env : Env) (p1 p2 : string) (w : World) :
  exists w', cleanup env p1 p2 w = (Ok tt, w').
Proof.
  unfold cleanup, try_pass.
  destruct ((unlink env p1;; unlink env p2) w) as [r w']. eauto.
Qed.

(** The removal leaves the log of capability calls alone. *)
Lemma unlink_calls (env : Env) (p : string) (w : World) :
  verify_calls (unlink env p w).2 = verify_calls w.
Proof.
  unfold unlink. destruct (files w !! p); [|reflexivity].
  destruct (unlink_error env p); reflexivity.
Qed.

(** The response of a staged request is decided by the guarded call alone:
    the [finally] clause changes the world, never the response. *)
Lemma response_when_staged (env : Env) (img1 img2 : list byte) (p1 p2 : string) (w : World) :
  Spec.staged env img1 img2 p1 p2 ->
  exists resp w1 w2,
    try_except (verify_and_score env p1 p2) capability_failure
      (mkWorld (Spec.staged_files w img1 img2 p1 p2) (verify_calls w)) = (Ok resp, w1)
    /\ cleanup env p1 p2 w1 = (Ok tt, w2)
    /\ verify_faces env w = (resp, w2).
Proof.
  intros Hst. unfold verify_faces.
  rewrite (body_when_staged env img1 img2 p1 p2 w Hst).
  unfold try_finally.
  set (w0 := mkWorld _ _).
  assert (Hok : exists resp w1,
             try_except (verify_and_score env p1 p2) capability_failure w0 = (Ok resp, w1)).
  { unfold try_except.
    destruct (verify_and_score env p1 p2 w0) as [[resp|e] w1]; [eauto|].
    unfold capability_failure.
    destruct (_ || _); eauto. }
  destruct Hok as (resp & w1 & Hok). rewrite Hok.
  destruct (cleanup_never_raises env p1 p2 w1) as (w2 & Hc). rewrite Hc.
  eauto 6.
Qed.

(** The guarded call, step by step: the capability is called once, then
    the quotient is taken, then the response is built. *)
Lemma verify_and_score_run (env : Env) (p1 p2 : string) (w : World) :
  verify_and_score env p1 p2 w =
    let w' := mkWorld (files w) (verify_calls w ++ [(p1, p2)]) in
    match deepface_verify env (files w) p1 p2 with
    | Raise e => (Raise e, w')
    | Ok v =>
        match PyFloat.div (distance v) (threshold v) with
        | Raise e => (Raise e, w')
        | Ok q =>
            (Ok (jsonify {[ "match" := JBool (verified v);
                            "confidence" := JFloat (PyFloat.round4 (clamp_confidence q));
                            "distance" := JFloat (PyFloat.round4 (distance v));
                            "threshold" := JFloat (PyFloat.round4 (threshold v)) ]} 200),
             w')
        end
    end.
Proof.
  unfold verify_and_score. rewrite run_bind. unfold call_deepface.
  destruct (deepface_verify env (files w) p1 p2) as [v|e]; [|reflexivity].
  rewrite run_bind. unfold lift.
  destruct (PyFloat.div (distance v) (threshold v)); reflexivity.
Qed.

(** The response of a staged request, by the outcome of the guarded call. *)
Lemma staged_response (env : Env) (img1 img2 : list byte) (p1 p2 : string) (w : World)
    (resp : Response) (w1 : World) :
  Spec.staged env img1 img2 p1 p2 ->
  try_except (verify_and_score env p1 p2) capability_failure
    (mkWorld (Spec.staged_files w img1 img2 p1 p2) (verify_calls w)) = (Ok resp, w1) ->
  (verify_faces env w).1 = resp.
Proof.
  intros Hst Hrun.
  destruct (response_when_staged env img1 img2 p1 p2 w Hst)
    as (resp' & w1' & w2 & Hrun' & _ & Hv).
  rewrite Hv. rewrite Hrun in Hrun'. cbn. congruence.
Qed.

(** ** Claims *)

(** C8. Every GET request to [/health] returns status 200 with the body
    [{status: "ok", service: "face-recognition-api"}]; the handler reads
    nothing, leaves the world as it is, cannot fail, and answers the same
    after any [/verify] request. *)
Theorem health_fixed_response :
  forall w : World,
    health w =
      (mkResponse 200 {[ "status" := JStr "ok"; "service" := JStr "face-recognition-api" ]}, w)
    /\ forall env : Env, (health (verify_faces env w).2).1 = (health w).1.
Proof. intros w. split; [reflexivity | intros env; reflexivity]. Qed.

(** C7. Every failure caught at the outer boundary of [verify_faces] gives
    status 500 with match false, confidence 0.0 and the error description
    ["Server error: " + str(e)]; the [traceback] entry carries the stack
    trace when the service runs in debug mode and is [None] otherwise. *)
Theorem outer_boundary_response :
  forall (env : Env) (w w' : World) (e : exn),
    verify_faces_body env w = (Raise e, w') ->
    let resp := (verify_faces env w).1 in
    status resp = 500
    /\ body resp !! "match" = Some (JBool false)
    /\ body resp !! "confidence" = Some (JFloat PyFloat.zero)
    /\ body resp !! "error" = Some (JStr ("Server error: " +:+ exn_str e))
    /\ (app_debug env = true -> body resp !! "traceback" = Some (JStr (format_exc env e)))
    /\ (app_debug env = false -> body resp !! "traceback" = Some JNull).
Proof.
  intros env w w' e Hraise resp. subst resp.
  unfold verify_faces. rewrite Hraise. cbn [fst server_error jsonify status body].
  repeat split; try reflexivity.
  - intros Hd. rewrite Hd. reflexivity.
  - intros Hd. rewrite Hd. reflexivity.
Qed.

Lemma outer_boundary_response_witness :
  let env := Sample.env (Ok (JBool true)) (Ok Sample.same_person) false in
  let resp := (verify_faces env Sample.world).1 in
  status resp = 500
  /\ body resp !! "match" = Some (JBool false)
  /\ body resp !! "confidence" = Some (JFloat PyFloat.zero)
  /\ body resp !! "error"
     = Some (JStr "Server error: argument of type 'bool' is not iterable")
  /\ body resp !! "traceback" = Some JNull.
Proof.
  intros env resp.
  destruct (outer_boundary_response env Sample.world Sample.world
              (Exception "TypeError" "argument of type 'bool' is not iterable")
              eq_refl)
    as (Hs & Hm & Hc & He & _ & Ht).
  exact (conj Hs (conj Hm (conj Hc (conj He (Ht eq_refl))))).
Defined.

(** C6, as stated, fails. The body [true] is present and has no
    [reference_photo] key, yet the membership test raises on it and the
    outer boundary answers 500; and for a request without a body, on which
    [request.json] raises, the outer boundary answers 500 as well. *)
Lemma missing_fields_counterexample :
  request_json Sample.env_true_payload = Ok (JBool true)
  /\ Spec.has_key (JBool true) "reference_photo" = false
  /\ status (verify_faces Sample.env_true_payload Sample.world).1 = 500
  /\ (verify_faces Sample.env_true_payload Sample.world).1
     <> jsonify (error_body "Missing reference_photo or today_photo") 400
  /\ request_json Sample.env_no_body = Raise Sample.unsupported_media_type
  /\ status (verify_faces Sample.env_no_body Sample.world).1 = 500.
Proof.
  split; [reflexivity|]. split; [reflexivity|]. split; [reflexivity|].
  split; [|split; reflexivity].
  intros H. apply (f_equal status) in H. vm_compute in H. discriminate H.
Qed.

Lemma holds_lookup (d : gmap string json) (k : string) :
  Spec.holds (JObj d) k = match d !! k with Some _ => true | None => false end.
Proof. cbn. destruct (d !! k); reflexivity. Qed.

Lemma missing_fields_true (data : json) :
  Py.truthy data = false
  \/ (Spec.is_container data = true
      /\ (Spec.holds data "reference_photo" = false
          \/ Spec.holds data "today_photo" = false)) ->
  missing_fields data = Ok true.
Proof.
  intros Hmiss.
  unfold missing_fields. destruct (Py.truthy data) eqn:Htruthy; [|reflexivity].
  destruct Hmiss as [Hf | (Hc & Hh)]; [discriminate Hf|]. cbn [negb].
  destruct data as [| b | z | f | s | l | d]; try discriminate Hc.
  - cbn in *. destruct (PyStr.contains "reference_photo" s); cbn.
    + destruct Hh as [Hh | Hh]; [discriminate Hh|]. rewrite Hh. reflexivity.
    + reflexivity.
  - cbn in *. destruct (existsb (Py.eq_str "reference_photo") l); cbn.
    + destruct Hh as [Hh | Hh]; [discriminate Hh|]. rewrite Hh. reflexivity.
    + reflexivity.
  - rewrite !holds_lookup in Hh. cbn [Py.contains].
    destruct (d !! "reference_photo"); cbn.
    + destruct Hh as [Hh | Hh]; [discriminate Hh|].
      destruct (d !! "today_photo"); [discriminate Hh | reflexivity].
    + reflexivity.
Qed.

(** C6, amended. When [request.json] returns a payload that is [None] or
    another false value ([false], [0], [0.0], [""], [[]], [{}]), or an
    object, array or string that does not hold [reference_photo] or does
    not hold [today_photo], the response is status 400 with error
    ["Missing reference_photo or today_photo"], match false and confidence
    0.0, and the world is unchanged: no file is staged and the capability
    is not called. When [request.json] raises instead of returning a
    payload, as for a request without a JSON body, the response is the 500
    server error of the outer boundary, the world being unchanged too. *)
Theorem missing_fields_response :
  forall (env : Env) (w : World),
    (forall data : json,
        request_json env = Ok data ->
        Py.truthy data = false
        \/ (Spec.is_container data = true
            /\ (Spec.holds data "reference_photo" = false
                \/ Spec.holds data "today_photo" = false)) ->
        verify_faces env w =
          (mkResponse 400 {[ "match" := JBool false;
                             "confidence" := JFloat PyFloat.zero;
                             "error" := JStr "Missing reference_photo or today_photo" ]},
           w))
    /\ (forall e : exn,
          request_json env = Raise e ->
          verify_faces env w =
            (mkResponse 500
               {[ "match" := JBool false;
                  "confidence" := JFloat PyFloat.zero;
                  "error" := JStr ("Server error: " +:+ exn_str e);
                  "traceback" := if app_debug env then JStr (format_exc env e)
                                 else JNull ]},
             w)).
Proof.
  intros env w. split.
  - intros data Hreq Hmiss.
    unfold verify_faces, verify_faces_body.
    rewrite Hreq, run_bind_lift_ok, (missing_fields_true data Hmiss), run_bind_lift_ok.
    reflexivity.
  - intros e Hreq.
    unfold verify_faces, verify_faces_body.
    rewrite Hreq, run_bind_lift_raise. reflexivity.
Qed.

Lemma missing_fields_response_witness :
  verify_faces
    (Sample.env (Ok (JObj {[ "reference_photo" := JStr "QUJD" ]})) (Ok Sample.same_person) false)
    Sample.world
  = (mkResponse 400 {[ "match" := JBool false;
                       "confidence" := JFloat PyFloat.zero;
                       "error" := JStr "Missing reference_photo or today_photo" ]},
     Sample.world)
  /\ verify_faces (Sample.env (Ok JNull) (Ok Sample.same_person) false) Sample.world
     = (mkResponse 400 {[ "match" := JBool false;
                          "confidence" := JFloat PyFloat.zero;
                          "error" := JStr "Missing reference_photo or today_photo" ]},
        Sample.world)
  /\ status (verify_faces Sample.env_no_body Sample.world).1 = 500.
Proof.
  split; [|split].
  - apply (proj1 (missing_fields_response
                    (Sample.env (Ok (JObj {[ "reference_photo" := JStr "QUJD" ]}))
                       (Ok Sample.same_person) false)
                    Sample.world)
             (JObj {[ "reference_photo" := JStr "QUJD" ]})).
    + reflexivity.
    + right. split; [reflexivity|]. right. reflexivity.
  - apply (proj1 (missing_fields_response
                    (Sample.env (Ok JNull) (Ok Sample.same_person) false) Sample.world)
             JNull).
    + reflexivity.
    + left. reflexivity.
  - rewrite (proj2 (missing_fields_response Sample.env_no_body Sample.world)
               Sample.unsupported_media_type eq_refl).
    reflexivity.
Defined.

(** C10, as stated, fails: in the object [{"reference_photo": 5}] the
    field [reference_photo] is present and is not a string, but the other
    field is missing, and the response is the missing-field response,
    whose error does not begin with ["Invalid base64 image data:"]. *)
Lemma non_string_field_counterexample :
  request_json Sample.env_only_reference = Ok (JObj {[ "reference_photo" := JInt 5 ]})
  /\ Spec.has_key (JObj {[ "reference_photo" := JInt 5 ]}) "reference_photo" = true
  /\ Py.getitem (JObj {[ "reference_photo" := JInt 5 ]}) "reference_photo" = Ok (JInt 5)
  /\ Py.is_str (JInt 5) = false
  /\ body (verify_faces Sample.env_only_reference Sample.world).1 !! "error"
     = Some (JStr "Missing reference_photo or today_photo")
  /\ PyStr.startswith "Invalid base64 image data:" "Missing reference_photo or today_photo"
     = false.
Proof. repeat split; reflexivity. Qed.

(** C10, amended. When the payload is an object in which both
    [reference_photo] and [today_photo] are present and at least one of
    them is not a string, the failure raised while inspecting it is caught
    by the decode branch: status 400, match false, confidence 0.0 and an
    error beginning with ["Invalid base64 image data: "]; nothing is staged
    or called. *)
Theorem non_string_field_response :
  forall (env : Env) (w : World) (r t : json),
    Spec.fields env r t ->
    Py.is_str r = false \/ Py.is_str t = false ->
    exists msg : string,
      verify_faces env w =
        (jsonify (error_body ("Invalid base64 image data: " +:+ msg)) 400, w).
Proof.
  intros env w r t Hf Hns.
  assert (Hdec : exists e, decode_images r t = Raise e).
  { unfold decode_images.
    destruct (strip_data_url r) as [r'|e] eqn:Hr; [|eauto]. cbn.
    destruct (strip_data_url t) as [t'|e] eqn:Ht; [|eauto]. cbn.
    exfalso. destruct Hns as [Hns | Hns].
    - destruct r; try discriminate Hns; discriminate Hr.
    - destruct t; try discriminate Hns; discriminate Ht. }
  destruct Hdec as (e & Hdec). exists (exn_str e).
  unfold verify_faces. rewrite (body_with_fields env r t w Hf), Hdec. reflexivity.
Qed.

Lemma non_string_field_response_witness :
  exists msg : string,
    verify_faces
      (Sample.env (Ok (Sample.request (JInt 5) (JStr "REVG"))) (Ok Sample.same_person) false)
      Sample.world
    = (jsonify (error_body ("Invalid base64 image data: " +:+ msg)) 400, Sample.world).
Proof.
  apply non_string_field_response with (r := JInt 5) (t := JStr "REVG").
  - exists {[ "reference_photo" := JInt 5; "today_photo" := JStr "REVG" ]}.
    split; [reflexivity|]. split; reflexivity.
  - left. reflexivity.
Defined.

Lemma sample_staged (verdict : result Verdict) (debug : bool) :
  Spec.staged (Sample.env (Ok Sample.good_request) verdict debug)
    ["A"; "B"; "C"]%byte ["D"; "E"; "F"]%byte Sample.ref_path Sample.today_path.
Proof.
  exists (JStr "data:image/jpeg;base64,QUJD"), (JStr "REVG").
  split.
  - exists {[ "reference_photo" := JStr "data:image/jpeg;base64,QUJD";
              "today_photo" := JStr "REVG" ]}.
    split; [reflexivity|]. split; reflexivity.
  - split; [reflexivity|]. repeat split; reflexivity.
Defined.

(** C3. When the capability fails and the failure's message contains
    ["Face could not be detected"] or ["No face detected"], the response is
    status 400 with error ["Face could not be detected in one or both
    images"], match false and confidence 0.0; on every other failure of the
    capability it is status 500 with match false, confidence 0.0 and the
    error ["Face recognition error: "] followed by the failure's message. *)
Theorem capability_failure_response :
  forall (env : Env) (w : World) (img1 img2 : list byte) (p1 p2 : string) (e : exn),
    Spec.staged env img1 img2 p1 p2 ->
    deepface_verify env (Spec.staged_files w img1 img2 p1 p2) p1 p2 = Raise e ->
    let no_face := PyStr.contains "Face could not be detected" (exn_str e)
                   || PyStr.contains "No face detected" (exn_str e) in
    (no_face = true ->
     (verify_faces env w).1 =
       mkResponse 400 {[ "match" := JBool false;
                         "confidence" := JFloat PyFloat.zero;
                         "error" := JStr "Face could not be detected in one or both images" ]})
    /\ (no_face = false ->
        (verify_faces env w).1 =
          mkResponse 500 {[ "match" := JBool false;
                            "confidence" := JFloat PyFloat.zero;
                            "error" := JStr ("Face recognition error: " +:+ exn_str e) ]}).
Proof.
  intros env w img1 img2 p1 p2 e Hst Hcap no_face.
  pose proof (staged_response env img1 img2 p1 p2 w) as Hresp.
  unfold try_except in Hresp. rewrite verify_and_score_run in Hresp.
  cbn [files] in Hresp. rewrite Hcap in Hresp. cbn zeta in Hresp.
  unfold capability_failure in Hresp. fold no_face in Hresp.
  split; intros Hnf; rewrite Hnf in Hresp;
    exact (Hresp _ _ Hst eq_refl).
Qed.

Lemma capability_failure_response_witness :
  (verify_faces (Sample.env (Ok Sample.good_request) (Raise Sample.no_face) false)
     Sample.world).1
  = mkResponse 400 {[ "match" := JBool false;
                      "confidence" := JFloat PyFloat.zero;
                      "error" := JStr "Face could not be detected in one or both images" ]}
  /\ (verify_faces (Sample.env (Ok Sample.good_request) (Raise Sample.model_missing) false)
        Sample.world).1
     = mkResponse 500 {[ "match" := JBool false;
                         "confidence" := JFloat PyFloat.zero;
                         "error" := JStr "Face recognition error: Invalid model_name passed - VGG-Face" ]}.
Proof.
  split.
  - apply (capability_failure_response _ Sample.world _ _ _ _ Sample.no_face
             (sample_staged (Raise Sample.no_face) false) eq_refl).
    reflexivity.
  - apply (capability_failure_response _ Sample.world _ _ _ _ Sample.model_missing
             (sample_staged (Raise Sample.model_missing) false) eq_refl).
    reflexivity.
Defined.

(** C9. When the capability returns a threshold equal to zero, the
    division raises before any confidence is computed; the failure is
    caught by the handler around the capability and reported as status 500
    with match false, confidence 0.0 and the error ["Face recognition
    error: float division by zero"]. *)
Theorem zero_threshold_response :
  forall (env : Env) (w : World) (img1 img2 : list byte) (p1 p2 : string) (v : Verdict),
    Spec.staged env img1 img2 p1 p2 ->
    deepface_verify env (Spec.staged_files w img1 img2 p1 p2) p1 p2 = Ok v ->
    PyFloat.is_zero (threshold v) = true ->
    PyFloat.div (distance v) (threshold v)
      = Raise (Exception "ZeroDivisionError" "float division by zero")
    /\ (verify_faces env w).1 =
         mkResponse 500 {[ "match" := JBool false;
                           "confidence" := JFloat PyFloat.zero;
                           "error" := JStr "Face recognition error: float division by zero" ]}.
Proof.
  intros env w img1 img2 p1 p2 v Hst Hcap Hzero.
  assert (Hdiv : PyFloat.div (distance v) (threshold v)
                 = Raise (Exception "ZeroDivisionError" "float division by zero")).
  { unfold PyFloat.div. rewrite Hzero. reflexivity. }
  split; [exact Hdiv|].
  apply (staged_response env img1 img2 p1 p2 w _
           (mkWorld (Spec.staged_files w img1 img2 p1 p2) (verify_calls w ++ [(p1, p2)])) Hst).
  unfold try_except. rewrite verify_and_score_run. cbn [files].
  rewrite Hcap. cbn zeta. rewrite Hdiv. reflexivity.
Qed.

Lemma zero_threshold_response_witness :
  (verify_faces (Sample.env (Ok Sample.good_request) (Ok Sample.zero_threshold) false)
     Sample.world).1
  = mkResponse 500 {[ "match" := JBool false;
                      "confidence" := JFloat PyFloat.zero;
                      "error" := JStr "Face recognition error: float division by zero" ]}.
Proof.
  apply (zero_threshold_response _ Sample.world _ _ _ _ Sample.zero_threshold
           (sample_staged (Ok Sample.zero_threshold) false) eq_refl eq_refl).
Defined.

(** ** The confidence score *)

Lemma ltb_zero_positive (x : spec_float) :
  PyFloat.ltb PyFloat.zero x = true ->
  x = S754_infinity false \/ exists m e, x = S754_finite false m e.
Proof.
  destruct x as [s | s | | s m e]; try destruct s; cbn; try discriminate; eauto.
Qed.

Lemma ltb_one_bound (m : positive) (e : Z) :
  PyFloat.ltb (S754_finite false m e) PyFloat.one = true ->
  e < 0 /\ Zpos m < 2 ^ (- e).
Proof.
  unfold PyFloat.ltb, PyFloat.one, PyFloat.compare, PyFloat.finite_compare.
  cbn [cond_Zopp].
  change (Z.pos 4503599627370496) with (2 ^ 52).
  destruct (Z.compare_spec (Z.pos m * 2 ^ (e - Z.min e (-52)))
                           (2 ^ 52 * 2 ^ (-52 - Z.min e (-52)))) as [H|H|H];
    try discriminate.
  intros _.
  destruct (Z.le_gt_cases e (-52)) as [Hle | Hgt].
  - rewrite Z.min_l in H by exact Hle.
    rewrite Z.sub_diag, Z.pow_0_r, Z.mul_1_r in H.
    rewrite <- Z.pow_add_r in H by lia.
    replace (52 + (-52 - e)) with (- e) in H by lia.
    split; [lia | exact H].
  - rewrite Z.min_r in H by lia.
    replace (-52 - -52) with 0 in H by lia.
    rewrite Z.pow_0_r, Z.mul_1_r in H.
    replace (e - -52) with (e + 52) in H by lia.
    assert (Hneg : e < 0).
    { destruct (Z.lt_ge_cases e 0) as [Hlt | Hge]; [exact Hlt | exfalso].
      assert (2 ^ 52 <= 2 ^ (e + 52)) by (apply Z.pow_le_mono_r; lia).
      assert (1 * 2 ^ (e + 52) <= Z.pos m * 2 ^ (e + 52)).
      { apply Z.mul_le_mono_nonneg_r; lia. }
      lia. }
    split; [exact Hneg|].
    assert (Hsplit : 2 ^ 52 = 2 ^ (- e) * 2 ^ (e + 52)).
    { rewrite <- Z.pow_add_r by lia. f_equal. lia. }
    rewrite Hsplit in H.
    apply Z.mul_lt_mono_pos_r in H; [exact H|].
    apply Z.pow_pos_nonneg; lia.
Qed.

Lemma round_half_even_bounds (n d k : Z) :
  0 < d -> 0 <= n -> n < d * k ->
  0 <= PyFloat.round_half_even n d <= k.
Proof.
  intros Hd Hn Hlt. unfold PyFloat.round_half_even.
  assert (Hq0 : 0 <= n / d) by (apply Z.div_pos; lia).
  assert (Hqk : n / d < k) by (apply Z.div_lt_upper_bound; lia).
  destruct (2 * (n mod d) ?= d); [destruct (Z.even (n / d))| |]; lia.
Qed.

Lemma scaled4_bounds (m : positive) (e : Z) :
  e < 0 -> Zpos m < 2 ^ (- e) ->
  0 <= PyFloat.scaled4 m e <= 10000.
Proof.
  intros He Hm. unfold PyFloat.scaled4.
  destruct (Z.leb_spec 0 e) as [H|_]; [lia|].
  apply round_half_even_bounds; lia.
Qed.

Lemma fractions_table :
  forallb Spec.fraction_in_unit_interval (Spec.positives_below 14) = true.
Proof. vm_compute. reflexivity. Qed.

Lemma positives_below_complete (bits : nat) (q : positive) :
  (Pos.size_nat q <= bits)%nat -> In q (Spec.positives_below bits).
Proof.
  revert q. induction bits as [|k IH]; intros q Hq.
  - destruct q; cbn in Hq; lia.
  - destruct q as [p|p|]; cbn [Pos.size_nat] in Hq; cbn [Spec.positives_below].
    + right. apply in_flat_map. exists p. split; [apply IH; lia | cbn; auto].
    + right. apply in_flat_map. exists p. split; [apply IH; lia | cbn; auto].
    + left. reflexivity.
Qed.

Lemma decimal4_in_unit_interval (q : positive) :
  Zpos q <= 10000 ->
  PyFloat.in_unit_interval (PyFloat.decimal4 false q) = true.
Proof.
  intros Hq.
  assert (Hin : In q (Spec.positives_below 14)).
  { apply positives_below_complete.
    change 14%nat with (Pos.size_nat 16383).
    apply Pos.size_nat_monotone. lia. }
  pose proof (proj1 (forallb_forall _ _) fractions_table q Hin) as Htable.
  unfold Spec.fraction_in_unit_interval in Htable.
  apply orb_true_iff in Htable. destruct Htable as [Hgt | Hunit]; [|exact Hunit].
  apply Z.ltb_lt in Hgt. lia.
Qed.

Lemma round4_in_unit_interval (x : spec_float) :
  PyFloat.ltb PyFloat.zero x = true ->
  PyFloat.ltb x PyFloat.one = true ->
  PyFloat.in_unit_interval (PyFloat.round4 x) = true.
Proof.
  intros H0 H1.
  destruct (ltb_zero_positive x H0) as [-> | (m & e & ->)]; [discriminate H1|].
  destruct (ltb_one_bound m e H1) as (He & Hm).
  pose proof (scaled4_bounds m e He Hm) as Hs.
  unfold PyFloat.round4.
  destruct (PyFloat.scaled4 m e) as [|q|q]; [reflexivity | | lia].
  apply decimal4_in_unit_interval. lia.
Qed.

(** The clamp, case by case: below one and above zero the value itself,
    below one but not above zero the lower bound, and the upper bound in
    every other case (a NaN included). *)
Lemma clamp_confidence_cases (q : spec_float) :
  let x := PyFloat.sub PyFloat.one q in
  clamp_confidence q =
    if PyFloat.ltb x PyFloat.one
    then if PyFloat.ltb PyFloat.zero x then x else PyFloat.zero
    else PyFloat.one.
Proof.
  intros x. unfold clamp_confidence, PyFloat.max, PyFloat.min, PyFloat.gtb. fold x.
  destruct (PyFloat.ltb x PyFloat.one); reflexivity.
Qed.

Lemma confidence_in_unit_interval (q : spec_float) :
  PyFloat.in_unit_interval (PyFloat.round4 (clamp_confidence q)) = true.
Proof.
  rewrite clamp_confidence_cases. cbn zeta.
  destruct (PyFloat.ltb (PyFloat.sub PyFloat.one q) PyFloat.one) eqn:H1;
    [|vm_compute; reflexivity].
  destruct (PyFloat.ltb PyFloat.zero (PyFloat.sub PyFloat.one q)) eqn:H0;
    [|reflexivity].
  apply round4_in_unit_interval; assumption.
Qed.

(** C1, as stated, fails: with both fields present and decoding, and the
    capability succeeding with distance 0.25 and threshold 0.0, the
    response is not a 200 response. *)
Lemma success_response_counterexample :
  Spec.staged Sample.env_zero_threshold
    ["A"; "B"; "C"]%byte ["D"; "E"; "F"]%byte Sample.ref_path Sample.today_path
  /\ deepface_verify Sample.env_zero_threshold
       (Spec.staged_files Sample.world ["A"; "B"; "C"]%byte ["D"; "E"; "F"]%byte
          Sample.ref_path Sample.today_path)
       Sample.ref_path Sample.today_path
     = Ok (mkVerdict false Sample.quarter PyFloat.zero)
  /\ status (verify_faces Sample.env_zero_threshold Sample.world).1 = 500.
Proof.
  split; [apply sample_staged|]. split; reflexivity.
Qed.

(** C1, amended. When both fields are present and decode, and the
    capability succeeds with verdict [m], distance [d] and a threshold [t]
    that is not zero, the response is status 200 and reports [match = m],
    [confidence = round(max(0.0, min(1.0, 1.0 - d / t)), 4)], a value of
    the interval [0, 1], and [d] and [t] rounded to four decimal digits. *)
Theorem success_response :
  forall (env : Env) (w : World) (img1 img2 : list byte) (p1 p2 : string) (v : Verdict),
    Spec.staged env img1 img2 p1 p2 ->
    deepface_verify env (Spec.staged_files w img1 img2 p1 p2) p1 p2 = Ok v ->
    PyFloat.is_zero (threshold v) = false ->
    let ratio := SFdiv PyFloat.prec PyFloat.emax (distance v) (threshold v) in
    let confidence :=
      PyFloat.round4
        (PyFloat.max PyFloat.zero
           (PyFloat.min PyFloat.one (PyFloat.sub PyFloat.one ratio))) in
    (verify_faces env w).1 =
      mkResponse 200 {[ "match" := JBool (verified v);
                        "confidence" := JFloat confidence;
                        "distance" := JFloat (PyFloat.round4 (distance v));
                        "threshold" := JFloat (PyFloat.round4 (threshold v)) ]}
    /\ PyFloat.leb PyFloat.zero confidence = true
    /\ PyFloat.leb confidence PyFloat.one = true.
Proof.
  intros env w img1 img2 p1 p2 v Hst Hcap Hnz ratio confidence.
  split.
  - apply (staged_response env img1 img2 p1 p2 w _
             (mkWorld (Spec.staged_files w img1 img2 p1 p2)
                      (verify_calls w ++ [(p1, p2)])) Hst).
    unfold try_except. rewrite verify_and_score_run. cbn [files].
    rewrite Hcap. cbn zeta. unfold PyFloat.div. rewrite Hnz. reflexivity.
  - pose proof (confidence_in_unit_interval ratio) as Hunit.
    unfold PyFloat.in_unit_interval in Hunit.
    apply andb_true_iff in Hunit. exact Hunit.
Qed.

Lemma success_response_witness :
  (verify_faces (Sample.env (Ok Sample.good_request) (Ok Sample.same_person) false)
     Sample.world).1
  = mkResponse 200 {[ "match" := JBool true;
                      "confidence" := JFloat Sample.half;
                      "distance" := JFloat Sample.quarter;
                      "threshold" := JFloat Sample.half ]}.
Proof.
  exact (proj1 (success_response _ Sample.world _ _ _ _ Sample.same_person
                  (sample_staged (Ok Sample.same_person) false) eq_refl eq_refl)).
Defined.

(** ** Data-URL prefixes *)

Lemma split_comma_nonempty (s : string) : PyStr.split_comma s <> [].
Proof.
  induction s as [|c rest IH]; cbn; [discriminate|].
  destruct (PyStr.is_comma c); [discriminate|].
  destruct (PyStr.split_comma rest); discriminate.
Qed.

(** The first piece of [s.split(',')] is what precedes the first comma;
    the other pieces are those of what follows it. *)
Lemma split_comma_unfold (s : string) :
  PyStr.split_comma s =
    Spec.before_first_comma s
      :: (if PyStr.has_comma s then PyStr.split_comma (Spec.after_first_comma s) else []).
Proof.
  induction s as [|c rest IH]; cbn; [reflexivity|].
  destruct (PyStr.is_comma c); cbn; [reflexivity|].
  rewrite IH. reflexivity.
Qed.


Lemma split_comma_second (s : string) :
  PyStr.index (PyStr.split_comma s) 1 =
    if PyStr.has_comma s
    then Ok (Spec.before_first_comma (Spec.after_first_comma s))
    else Raise (Exception "IndexError" "list index out of range").
Proof.
  rewrite split_comma_unfold. unfold PyStr.index. cbn [nth_error].
  destruct (PyStr.has_comma s); [|reflexivity].
  rewrite split_comma_unfold. reflexivity.
Qed.





(** ** Decoding failures *)

(** The decode step succeeds exactly when both fields can be stripped and
    both stripped fields decode; the images are the decoded fields. *)
Lemma decode_images_ok (r t : json) (img1 img2 : list byte) :
  decode_images r t = Ok (img1, img2) <->
  exists r' t', strip_data_url r = Ok r' /\ strip_data_url t = Ok t'
                /\ Base64.decode r' = Ok img1 /\ Base64.decode t' = Ok img2.
Proof.
  unfold decode_images. split.
  - destruct (strip_data_url r) as [r'|e]; cbn; [|discriminate].
    destruct (strip_data_url t) as [t'|e]; cbn; [|discriminate].
    destruct (Base64.decode r') as [i1|e] eqn:H1; cbn; [|discriminate].
    destruct (Base64.decode t') as [i2|e] eqn:H2; cbn; [|discriminate].
    intros H. injection H as <- <-. exists r', t'. repeat split; assumption.
  - intros (r' & t' & -> & -> & Hr & Ht). cbn. rewrite Hr. cbn. rewrite Ht. reflexivity.
Qed.

(** C5, as stated, fails: ["QUJD!"] is not valid base64, yet the lenient
    decoder skips the ["!"], the request goes through and is answered
    with status 200. *)
Lemma invalid_base64_counterexample :
  Spec.fields (Sample.env (Ok (Sample.request (JStr "QUJD!") (JStr "REVG")))
                 (Ok Sample.same_person) false)
    (JStr "QUJD!") (JStr "REVG")
  /\ strip_data_url (JStr "QUJD!") = Ok (JStr "QUJD!")
  /\ Spec.valid_base64 "QUJD!" = false
  /\ Base64.b64decode "QUJD!" = Ok ["A"; "B"; "C"]%byte
  /\ status (verify_faces
               (Sample.env (Ok (Sample.request (JStr "QUJD!") (JStr "REVG")))
                  (Ok Sample.same_person) false)
               Sample.world).1 = 200.
Proof.
  split.
  - exists {[ "reference_photo" := JStr "QUJD!"; "today_photo" := JStr "REVG" ]}.
    split; [reflexivity|]. split; reflexivity.
  - repeat split; reflexivity.
Qed.

(** C5, amended. When, after the optional stripping, decoding either field
    raises, the response is status 400 with match false, confidence 0.0
    and the error ["Invalid base64 image data: "] followed by the message
    of the failure that came first ([reference_photo] before
    [today_photo]); nothing is staged or called. *)
Theorem decode_failure_response :
  forall (env : Env) (w : World) (r t r' t' : json),
    Spec.fields env r t ->
    strip_data_url r = Ok r' -> strip_data_url t = Ok t' ->
    raises (Base64.decode r') = true \/ raises (Base64.decode t') = true ->
    exists e : exn,
      (Base64.decode r' = Raise e
       \/ (raises (Base64.decode r') = false /\ Base64.decode t' = Raise e))
      /\ verify_faces env w =
           (mkResponse 400 {[ "match" := JBool false;
                              "confidence" := JFloat PyFloat.zero;
                              "error" := JStr ("Invalid base64 image data: " +:+ exn_str e) ]},
            w).
Proof.
  intros env w r t r' t' Hf Hr Ht Hfail.
  assert (Hdec : exists e,
             (Base64.decode r' = Raise e
              \/ (raises (Base64.decode r') = false /\ Base64.decode t' = Raise e))
             /\ decode_images r t = Raise e).
  { unfold decode_images. rewrite Hr, Ht. cbn.
    destruct (Base64.decode r') as [i1|e1]; cbn.
    - destruct (Base64.decode t') as [i2|e2]; cbn.
      + destruct Hfail as [Hfail | Hfail]; discriminate Hfail.
      + exists e2. split; [right; split; reflexivity | reflexivity].
    - exists e1. split; [left; reflexivity | reflexivity]. }
  destruct Hdec as (e & Hwhich & Hdec). exists e. split; [exact Hwhich|].
  unfold verify_faces. rewrite (body_with_fields env r t w Hf), Hdec. reflexivity.
Qed.

Lemma decode_failure_response_witness :
  exists e : exn,
    (Base64.decode (JStr "QUJ") = Raise e
     \/ (raises (Base64.decode (JStr "QUJ")) = false /\ Base64.decode (JStr "REVG") = Raise e))
    /\ verify_faces
         (Sample.env (Ok (Sample.request (JStr "data:image/jpeg;base64,QUJ") (JStr "REVG")))
            (Ok Sample.same_person) false)
         Sample.world
       = (mkResponse 400 {[ "match" := JBool false;
                            "confidence" := JFloat PyFloat.zero;
                            "error" := JStr ("Invalid base64 image data: " +:+ exn_str e) ]},
          Sample.world).
Proof.
  apply (decode_failure_response _ Sample.world
           (JStr "data:image/jpeg;base64,QUJ") (JStr "REVG") (JStr "QUJ") (JStr "REVG")).
  - exists {[ "reference_photo" := JStr "data:image/jpeg;base64,QUJ";
              "today_photo" := JStr "REVG" ]}.
    split; [reflexivity|]. split; reflexivity.
  - reflexivity.
  - reflexivity.
  - left. reflexivity.
Defined.

(** ** Removal of the temporary files *)

(** C2 does not hold of the code. The claim: every request that stages
    temporary files has them removed before the response is returned, on
    every exit path. Here the first file is staged, creating the second
    one fails, the outer boundary answers 500, and the first file is still
    in the temporary directory afterwards: the [finally] clause that
    removes the files only guards the call of the capability. *)
Theorem staging_failure_leaves_file :
  status (verify_faces
            (Sample.env_second_file_fails (Ok Sample.good_request) (Ok Sample.same_person))
            Sample.world).1 = 500
  /\ files (verify_faces
              (Sample.env_second_file_fails (Ok Sample.good_request) (Ok Sample.same_person))
              Sample.world).2 !! Sample.ref_path
     = Some ["A"; "B"; "C"]%byte
  /\ verify_calls (verify_faces
                     (Sample.env_second_file_fails (Ok Sample.good_request)
                        (Ok Sample.same_person))
                     Sample.world).2 = [].
Proof. repeat split; vm_compute; reflexivity. Qed.

(** The same claim fails on a second path: both removals share one
    [try ... except: pass], so when removing the first file fails the
    second removal is skipped and the second file stays, although the
    response is the 200 response. *)
Lemma failed_removal_skips_second_file :
  status (verify_faces
            (Sample.env_unlink_fails (Ok Sample.good_request) (Ok Sample.same_person))
            Sample.world).1 = 200
  /\ files (verify_faces
              (Sample.env_unlink_fails (Ok Sample.good_request) (Ok Sample.same_person))
              Sample.world).2 !! Sample.today_path
     = Some ["D"; "E"; "F"]%byte.
Proof. split; vm_compute; reflexivity. Qed.

(** * Further properties of the handler *)

(** ** What the guarded call and the removal do to the world *)

(** The guarded call always ends in a response; it leaves the files alone
    and logs exactly one call of the capability. *)
Lemma guarded_call_outcome (env : Env) (p1 p2 : string) (w : World) :
  exists resp,
    try_except (verify_and_score env p1 p2) capability_failure w
    = (Ok resp, mkWorld (files w) (verify_calls w ++ [(p1, p2)])).
Proof.
  unfold try_except. rewrite verify_and_score_run. cbn zeta.
  destruct (deepface_verify env (files w) p1 p2) as [v|e].
  - destruct (PyFloat.div (distance v) (threshold v)) as [q|e]; [eauto|].
    unfold capability_failure. destruct (_ || _); eauto.
  - unfold capability_failure. destruct (_ || _); eauto.
Qed.

Lemma unlink_other_file (env : Env) (path p : string) (w : World) :
  p <> path -> files (unlink env path w).2 !! p = files w !! p.
Proof.
  intros Hne. unfold unlink. destruct (files w !! path); [|reflexivity].
  destruct (unlink_error env path); [reflexivity|].
  cbn. apply lookup_delete_ne. congruence.
Qed.

Lemma cleanup_run (env : Env) (p1 p2 : string) (w : World) :
  cleanup env p1 p2 w =
    (Ok tt, match unlink env p1 w with
            | (Ok _, w1) => (unlink env p2 w1).2
            | (Raise _, w1) => w1
            end).
Proof.
  unfold cleanup, try_pass. rewrite run_bind.
  destruct (unlink env p1 w) as [[u|e] w1]; [|reflexivity].
  destruct (unlink env p2 w1); reflexivity.
Qed.

Lemma cleanup_calls (env : Env) (p1 p2 : string) (w : World) :
  verify_calls (cleanup env p1 p2 w).2 = verify_calls w.
Proof.
  rewrite cleanup_run. cbn [snd].
  pose proof (unlink_calls env p1 w) as H1.
  destruct (unlink env p1 w) as [[u|e] w1]; cbn [snd] in *; [|exact H1].
  rewrite unlink_calls. exact H1.
Qed.

Lemma cleanup_other_file (env : Env) (p1 p2 p : string) (w : World) :
  p <> p1 -> p <> p2 -> files (cleanup env p1 p2 w).2 !! p = files w !! p.
Proof.
  intros Hn1 Hn2. rewrite cleanup_run. cbn [snd].
  pose proof (unlink_other_file env p1 p w Hn1) as H1.
  destruct (unlink env p1 w) as [[u|e] w1]; cbn [snd] in *; [|exact H1].
  rewrite (unlink_other_file env p2 p w1 Hn2). exact H1.
Qed.

Lemma cleanup_removes_both (env : Env) (p1 p2 : string) (w : World) :
  is_Some (files w !! p1) -> is_Some (files w !! p2) -> p1 <> p2 ->
  unlink_error env p1 = None -> unlink_error env p2 = None ->
  files (cleanup env p1 p2 w).2 = delete p2 (delete p1 (files w)).
Proof.
  intros [c1 H1] [c2 H2] Hne He1 He2. rewrite cleanup_run. cbn [snd].
  assert (Hfirst : unlink env p1 w = (Ok tt, set_files (delete p1 (files w)) w)).
  { unfold unlink. rewrite H1, He1. reflexivity. }
  rewrite Hfirst. unfold unlink. cbn [files set_files].
  rewrite lookup_delete_ne by exact Hne. rewrite H2, He2. reflexivity.
Qed.

(** The world in which a staged request ends: the files left by the
    removal step, and one more logged call. *)
Lemma staged_world (env : Env) (img1 img2 : list byte) (p1 p2 : string) (w : World) :
  Spec.staged env img1 img2 p1 p2 ->
  (verify_faces env w).2 =
    (cleanup env p1 p2
       (mkWorld (Spec.staged_files w img1 img2 p1 p2) (verify_calls w ++ [(p1, p2)]))).2.
Proof.
  intros Hst.
  destruct (response_when_staged env img1 img2 p1 p2 w Hst)
    as (resp & w1 & w2 & Hrun & Hclean & Hv).
  destruct (guarded_call_outcome env p1 p2
              (mkWorld (Spec.staged_files w img1 img2 p1 p2) (verify_calls w)))
    as (resp' & Hrun').
  rewrite Hrun in Hrun'. injection Hrun' as _ ->.
  rewrite Hv. cbn [snd files verify_calls] in *. rewrite Hclean. reflexivity.
Qed.

(** ** Extra properties *)

(** X1. When both images are staged under two distinct fresh names and
    removing them does not fail, the temporary directory after the
    response is what it was before the request, whatever the capability
    answered, and the capability was called exactly once, on the two
    staged paths. *)
Theorem staged_files_removed :
  forall (env : Env) (w : World) (img1 img2 : list byte) (p1 p2 : string),
    Spec.staged env img1 img2 p1 p2 ->
    files w !! p1 = None -> files w !! p2 = None -> p1 <> p2 ->
    unlink_error env p1 = None -> unlink_error env p2 = None ->
    (verify_faces env w).2 = mkWorld (files w) (verify_calls w ++ [(p1, p2)]).
Proof.
  intros env w img1 img2 p1 p2 Hst Hf1 Hf2 Hne He1 He2.
  rewrite (staged_world env img1 img2 p1 p2 w Hst).
  set (w0 := mkWorld _ _).
  assert (Hfiles : files (cleanup env p1 p2 w0).2 = files w).
  { rewrite cleanup_removes_both; try assumption.
    - subst w0. cbn [files]. unfold Spec.staged_files.
      rewrite delete_insert_ne by congruence.
      rewrite delete_insert_eq.
      rewrite delete_insert_eq.
      rewrite (delete_id (files w) p1 Hf1).
      apply delete_id. exact Hf2.
    - subst w0. cbn [files]. unfold Spec.staged_files.
      rewrite lookup_insert_ne by congruence. rewrite lookup_insert_eq. eauto.
    - subst w0. cbn [files]. unfold Spec.staged_files.
      rewrite lookup_insert_eq. eauto. }
  pose proof (cleanup_calls env p1 p2 w0) as Hcalls.
  destruct (cleanup env p1 p2 w0).2 as [fs calls]. cbn in *. subst. reflexivity.
Qed.

Lemma staged_files_removed_witness :
  (verify_faces (Sample.env (Ok Sample.good_request) (Raise Sample.no_face) false)
     Sample.world).2
  = mkWorld ∅ [(Sample.ref_path, Sample.today_path)].
Proof.
  apply (staged_files_removed _ Sample.world _ _ _ _
           (sample_staged (Raise Sample.no_face) false)).
  - reflexivity.
  - reflexivity.
  - discriminate.
  - reflexivity.
  - reflexivity.
Defined.

(** ** The exits of the handler *)

Lemma getitem_ok (data : json) (k : string) (v : json) :
  Py.getitem data k = Ok v -> exists d, data = JObj d /\ d !! k = Some v.
Proof.
  destruct data as [| b | z | f | s | l | d]; cbn; try discriminate.
  destruct (d !! k) as [x|] eqn:Hk; [|discriminate].
  intros H. injection H as ->. eauto.
Qed.

Lemma error_body_is_error (msg : string) (code : Z) :
  Outcome.is_error (jsonify (error_body msg) code).
Proof. repeat split; try reflexivity. exists msg. reflexivity. Qed.

Lemma server_error_is_error (env : Env) (e : exn) :
  status (server_error env e) = 500 /\ Outcome.is_error (server_error env e).
Proof.
  split; [reflexivity|]. repeat split; try reflexivity.
  exists ("Server error: " +:+ exn_str e). reflexivity.
Qed.

(** Either both images get staged, or the handler answers with a 400 or
    500 error response, does not call the capability, and changes no file
    other than a temporary file it created. *)
Lemma unstaged_outcome (env : Env) (w : World) :
  (exists img1 img2 p1 p2, Spec.staged env img1 img2 p1 p2)
  \/ (exists resp fs,
        verify_faces env w = (resp, set_files fs w)
        /\ (status resp = 400 \/ status resp = 500)
        /\ Outcome.is_error resp
        /\ forall p, tmp_ref env <> Ok p -> tmp_today env <> Ok p ->
                     fs !! p = files w !! p).
Proof.
  assert (Hsame : set_files (files w) w = w) by (destruct w; reflexivity).
  assert (Hstay : forall resp,
             (status resp = 400 \/ status resp = 500) -> Outcome.is_error resp ->
             verify_faces env w = (resp, w) ->
             exists resp fs,
               verify_faces env w = (resp, set_files fs w)
               /\ (status resp = 400 \/ status resp = 500)
               /\ Outcome.is_error resp
               /\ forall p, tmp_ref env <> Ok p -> tmp_today env <> Ok p ->
                            fs !! p = files w !! p).
  { intros resp Hs He Hv. exists resp, (files w). rewrite Hsame. auto. }
  unfold verify_faces, verify_faces_body in *.
  destruct (request_json env) as [data|e] eqn:Hreq;
    [rewrite run_bind_lift_ok in *|].
  2:{ right. apply (Hstay (server_error env e)); [right | | ]; try reflexivity.
      apply server_error_is_error. }
  destruct (missing_fields data) as [[|]|e] eqn:Hmiss;
    [| rewrite run_bind_lift_ok in * |].
  { right. apply (Hstay (jsonify (error_body "Missing reference_photo or today_photo") 400));
      [left; reflexivity | apply error_body_is_error | reflexivity]. }
  2:{ right. apply (Hstay (server_error env e)); [right | | ]; try reflexivity.
      apply server_error_is_error. }
  destruct (Py.getitem data "reference_photo") as [r|e] eqn:Hr;
    [rewrite run_bind_lift_ok in *|].
  2:{ right. apply (Hstay (server_error env e)); [right | | ]; try reflexivity.
      apply server_error_is_error. }
  destruct (Py.getitem data "today_photo") as [t|e] eqn:Ht;
    [rewrite run_bind_lift_ok in *|].
  2:{ right. apply (Hstay (server_error env e)); [right | | ]; try reflexivity.
      apply server_error_is_error. }
  destruct (decode_images r t) as [[img1 img2]|e] eqn:Hdec.
  2:{ right.
      apply (Hstay (jsonify (error_body ("Invalid base64 image data: " +:+ exn_str e)) 400));
        [left; reflexivity | apply error_body_is_error | reflexivity]. }
  clear Hstay.
  destruct (tmp_ref env) as [p1|e] eqn:Hp1.
  2:{ right. exists (server_error env e), (files w). rewrite Hsame.
      rewrite run_bind. unfold named_temporary_file at 1.
      split; [reflexivity|]. split; [right; reflexivity|].
      split; [apply server_error_is_error | auto]. }
  destruct (write_ref env) as [e|] eqn:Hw1.
  { right. exists (server_error env e), (<[p1 := []]> (files w)).
    rewrite run_bind. unfold named_temporary_file at 1.
    split; [reflexivity|]. split; [right; reflexivity|].
    split; [apply server_error_is_error|].
    intros p Hn1 _. apply lookup_insert_ne. congruence. }
  destruct (tmp_today env) as [p2|e] eqn:Hp2.
  2:{ right. exists (server_error env e), (<[p1 := img1]> (files w)).
      rewrite run_bind. unfold named_temporary_file at 1.
      rewrite run_bind. unfold named_temporary_file at 1.
      split; [reflexivity|]. split; [right; reflexivity|].
      split; [apply server_error_is_error|].
      intros p Hn1 _. apply lookup_insert_ne. congruence. }
  destruct (write_today env) as [e|] eqn:Hw2.
  { right. exists (server_error env e), (<[p2 := []]> (<[p1 := img1]> (files w))).
    rewrite run_bind. unfold named_temporary_file at 1.
    rewrite run_bind. unfold named_temporary_file at 1.
    split; [reflexivity|]. split; [right; reflexivity|].
    split; [apply server_error_is_error|].
    intros p Hn1 Hn2.
    rewrite lookup_insert_ne by congruence. apply lookup_insert_ne. congruence. }
  left. exists img1, img2, p1, p2, r, t.
  destruct (getitem_ok _ _ _ Hr) as (d & -> & Hdr).
  destruct (getitem_ok _ _ _ Ht) as (d' & Heq & Hdt). injection Heq as <-.
  split; [exists d; auto|]. auto.
Qed.

Lemma guarded_call_shape (env : Env) (p1 p2 : string) (w w' : World) (resp : Response) :
  try_except (verify_and_score env p1 p2) capability_failure w = (Ok resp, w') ->
  (status resp = 200 /\ Outcome.is_success resp)
  \/ ((status resp = 400 \/ status resp = 500) /\ Outcome.is_error resp).
Proof.
  unfold try_except. rewrite verify_and_score_run. cbn zeta.
  assert (Hfail : forall e w0,
             capability_failure e w0 = (Ok resp, w') ->
             (status resp = 400 \/ status resp = 500) /\ Outcome.is_error resp).
  { intros e w0. unfold capability_failure.
    destruct (_ || _); intros H; injection H as <- _.
    - split; [left; reflexivity | apply error_body_is_error].
    - split; [right; reflexivity | apply error_body_is_error]. }
  destruct (deepface_verify env (files w) p1 p2) as [v|e]; [|eauto].
  destruct (PyFloat.div (distance v) (threshold v)) as [q|e]; [|eauto].
  intros H. injection H as <- _. left. split; [reflexivity|].
  exists (verified v), (PyFloat.round4 (clamp_confidence q)),
         (PyFloat.round4 (distance v)), (PyFloat.round4 (threshold v)).
  split; [reflexivity | apply confidence_in_unit_interval].
Qed.

Lemma try_finally_response {A} (body : M A) (fin : M unit) (w : World) :
  (exists w', fin (body w).2 = (Ok tt, w')) ->
  (try_finally body fin w).1 = (body w).1.
Proof.
  intros (w' & Hfin). unfold try_finally.
  destruct (body w) as [r w1]. cbn [snd] in Hfin. rewrite Hfin. reflexivity.
Qed.

(** X2. Every response of [/verify] has one of two shapes: status 200
    with exactly the entries match, confidence, distance and threshold,
    the confidence lying in [0, 1]; or status 400 or 500 with match false,
    confidence 0.0 and an error text. *)
Theorem response_shape :
  forall (env : Env) (w : World),
    (status (verify_faces env w).1 = 200 /\ Outcome.is_success (verify_faces env w).1)
    \/ ((status (verify_faces env w).1 = 400 \/ status (verify_faces env w).1 = 500)
        /\ Outcome.is_error (verify_faces env w).1).
Proof.
  intros env w.
  destruct (unstaged_outcome env w)
    as [(img1 & img2 & p1 & p2 & Hst) | (resp & fs & Hv & Hs & He & _)].
  - destruct (response_when_staged env img1 img2 p1 p2 w Hst)
      as (resp & w1 & w2 & Hrun & _ & Hv).
    rewrite Hv. cbn [fst]. exact (guarded_call_shape _ _ _ _ _ _ Hrun).
  - rewrite Hv. right. split; assumption.
Qed.

(** X3. A request calls the verification capability at most once, and
    only on the two files it staged: afterwards the log of calls is the
    one before, or the one before followed by the pair of the two
    temporary names. *)
Theorem capability_called_at_most_once :
  forall (env : Env) (w : World),
    verify_calls (verify_faces env w).2 = verify_calls w
    \/ exists p1 p2,
         tmp_ref env = Ok p1 /\ tmp_today env = Ok p2
         /\ verify_calls (verify_faces env w).2 = (verify_calls w ++ [(p1, p2)])%list.
Proof.
  intros env w.
  destruct (unstaged_outcome env w)
    as [(img1 & img2 & p1 & p2 & Hst) | (resp & fs & Hv & _)].
  - right. exists p1, p2.
    rewrite (staged_world env img1 img2 p1 p2 w Hst), cleanup_calls.
    destruct Hst as (r & t & _ & _ & Hp1 & _ & Hp2 & _). auto.
  - left. rewrite Hv. reflexivity.
Qed.

(** X4. The handler only touches the temporary files it creates: every
    other path of the directory holds after the request what it held
    before. *)
Theorem other_files_untouched :
  forall (env : Env) (w : World) (p : string),
    tmp_ref env <> Ok p -> tmp_today env <> Ok p ->
    files (verify_faces env w).2 !! p = files w !! p.
Proof.
  intros env w p Hn1 Hn2.
  destruct (unstaged_outcome env w)
    as [(img1 & img2 & p1 & p2 & Hst) | (resp & fs & Hv & _ & _ & Hframe)].
  - rewrite (staged_world env img1 img2 p1 p2 w Hst).
    destruct Hst as (r & t & _ & _ & Hp1 & _ & Hp2 & _).
    assert (p <> p1) by congruence. assert (p <> p2) by congruence.
    rewrite cleanup_other_file by assumption.
    cbn [files]. unfold Spec.staged_files.
    rewrite lookup_insert_ne by congruence. apply lookup_insert_ne. congruence.
  - rewrite Hv. cbn. apply Hframe; assumption.
Qed.

Lemma other_files_untouched_witness :
  files (verify_faces (Sample.env (Ok Sample.good_request) (Ok Sample.same_person) false)
           (mkWorld {[ "/tmp/notes.txt" := ["A"]%byte ]} [])).2 !! "/tmp/notes.txt"
  = Some ["A"]%byte.
Proof.
  rewrite (other_files_untouched
             (Sample.env (Ok Sample.good_request) (Ok Sample.same_person) false)
             (mkWorld {[ "/tmp/notes.txt" := ["A"]%byte ]} []) "/tmp/notes.txt").
  - reflexivity.
  - discriminate.
  - discriminate.
Defined.

(** X5. A failure to remove a temporary file never changes the response:
    the response is the same under every behaviour of [os.unlink]. *)
Theorem response_independent_of_removal :
  forall (env : Env) (failure : string -> option exn) (w : World),
    (verify_faces (Outcome.with_unlink_error env failure) w).1 = (verify_faces env w).1.
Proof.
  intros env failure w.
  assert (Hbody : (verify_faces_body (Outcome.with_unlink_error env failure) w).1
                  = (verify_faces_body env w).1).
  { unfold verify_faces_body.
    cbn [Outcome.with_unlink_error request_json tmp_ref write_ref tmp_today write_today].
    destruct (request_json env) as [data|e]; [rewrite !run_bind_lift_ok | reflexivity].
    destruct (missing_fields data) as [[|]|e];
      [reflexivity | rewrite !run_bind_lift_ok | reflexivity].
    destruct (Py.getitem data "reference_photo") as [r|e];
      [rewrite !run_bind_lift_ok | reflexivity].
    destruct (Py.getitem data "today_photo") as [t|e];
      [rewrite !run_bind_lift_ok | reflexivity].
    destruct (decode_images r t) as [[img1 img2]|e]; [|reflexivity].
    rewrite !run_bind.
    destruct (named_temporary_file (tmp_ref env) (write_ref env) img1 w)
      as [[p1|e] w1]; [|reflexivity].
    rewrite !run_bind.
    destruct (named_temporary_file (tmp_today env) (write_today env) img2 w1)
      as [[p2|e] w2]; [|reflexivity].
    rewrite !try_finally_response by apply cleanup_never_raises.
    reflexivity. }
  unfold verify_faces.
  destruct (verify_faces_body (Outcome.with_unlink_error env failure) w) as [r1 w1].
  destruct (verify_faces_body env w) as [r2 w2].
  cbn [fst] in Hbody. subst r2. destruct r1; reflexivity.
Qed.

(** ** Valid base64 text is accepted *)

Lemma is_pad_value_of (c : ascii) : Base64.is_pad c = true -> Base64.value_of c = None.
Proof.
  unfold Base64.is_pad. intros H. apply Ascii.eqb_eq in H. subst c. reflexivity.
Qed.

Lemma value_of_not_pad (c : ascii) (v : Z) :
  Base64.value_of c = Some v -> Base64.is_pad c = false.
Proof.
  intros Hv. destruct (Base64.is_pad c) eqn:Hp; [|reflexivity].
  rewrite (is_pad_value_of c Hp) in Hv. discriminate.
Qed.

Lemma value_of_ascii (c : ascii) (v : Z) :
  Base64.value_of c = Some v -> (Z.of_N (N_of_ascii c) <? 128) = true.
Proof.
  unfold Base64.value_of. intros Hv. apply Z.ltb_lt.
  destruct (Z.leb_spec 65 (Z.of_N (N_of_ascii c))),
           (Z.leb_spec (Z.of_N (N_of_ascii c)) 90),
           (Z.leb_spec 97 (Z.of_N (N_of_ascii c))),
           (Z.leb_spec (Z.of_N (N_of_ascii c)) 122),
           (Z.leb_spec 48 (Z.of_N (N_of_ascii c))),
           (Z.leb_spec (Z.of_N (N_of_ascii c)) 57),
           (Z.eqb_spec (Z.of_N (N_of_ascii c)) 43),
           (Z.eqb_spec (Z.of_N (N_of_ascii c)) 47);
    cbn in Hv; try discriminate Hv; lia.
Qed.

Lemma alphabet_then_pads_ascii (s : string) :
  Spec.alphabet_then_pads s = true -> PyStr.is_ascii s = true.
Proof.
  induction s as [|c rest IH]; cbn; [reflexivity|].
  destruct (Base64.value_of c) as [v|] eqn:Hv.
  - intros H. rewrite (value_of_ascii c v Hv). cbn. apply IH. exact H.
  - intros H. apply andb_true_iff in H. destruct H as [Hp Hrest].
    unfold Base64.is_pad in Hp. apply Ascii.eqb_eq in Hp. subst c. cbn.
    apply orb_true_iff in Hrest.
    destruct Hrest as [Hr | Hr]; apply String.eqb_eq in Hr; subst rest; reflexivity.
Qed.

(** The decoding loop on well-formed text: started inside a quad whose
    remaining characters the text supplies, it ends without an error. *)
Lemma a2b_base64_valid (s : string) :
  forall (quad_pos leftchar : Z) (out : list byte),
    Spec.alphabet_then_pads s = true ->
    0 <= quad_pos <= 3 ->
    (Z.of_nat (String.length s) + quad_pos) mod 4 = 0 ->
    exists bytes, Base64.a2b_base64 s quad_pos leftchar 0 out = Ok bytes.
Proof.
  induction s as [|c rest IH]; intros quad_pos leftchar out Hwf Hq Hlen.
  - cbn [String.length] in Hlen. cbn.
    assert (quad_pos = 0) by (Z.div_mod_to_equations; lia). subst. eauto.
  - cbn [Spec.alphabet_then_pads] in Hwf.
    cbn [String.length] in Hlen. rewrite Nat2Z.inj_succ in Hlen.
    cbn [Base64.a2b_base64].
    destruct (Base64.value_of c) as [v|] eqn:Hv.
    + rewrite (value_of_not_pad c v Hv).
      assert (Hcases : quad_pos = 0 \/ quad_pos = 1 \/ quad_pos = 2 \/ quad_pos = 3) by lia.
      destruct Hcases as [-> | [-> | [-> | ->]]]; cbn [Z.eqb];
        apply IH; try assumption; try lia;
        Z.div_mod_to_equations; lia.
    + apply andb_true_iff in Hwf. destruct Hwf as [Hp Hrest]. rewrite Hp.
      apply orb_true_iff in Hrest.
      destruct Hrest as [Hr | Hr]; apply String.eqb_eq in Hr; subst rest;
        cbn [String.length] in Hlen.
      * assert (quad_pos = 3) by (Z.div_mod_to_equations; lia). subst.
        cbn. eauto.
      * assert (quad_pos = 2) by (Z.div_mod_to_equations; lia). subst.
        cbn. eauto.
Qed.

Lemma b64decode_valid (s : string) :
  Spec.valid_base64 s = true -> exists bytes, Base64.b64decode s = Ok bytes.
Proof.
  unfold Spec.valid_base64, Base64.b64decode. intros H.
  apply andb_true_iff in H. destruct H as [Hwf Hlen]. apply Z.eqb_eq in Hlen.
  rewrite (alphabet_then_pads_ascii s Hwf).
  apply a2b_base64_valid; [exact Hwf | lia | rewrite Z.add_0_r; exact Hlen].
Qed.

(** X6. Valid base64 is never rejected: when the two fields, after the
    optional stripping, are valid base64 texts, the decode step succeeds
    and the request is not answered with the invalid-base64 error. *)
Theorem valid_base64_accepted :
  forall (r t : json) (r' t' : string),
    strip_data_url r = Ok (JStr r') -> strip_data_url t = Ok (JStr t') ->
    Spec.valid_base64 r' = true -> Spec.valid_base64 t' = true ->
    exists img1 img2,
      Base64.b64decode r' = Ok img1 /\ Base64.b64decode t' = Ok img2
      /\ decode_images r t = Ok (img1, img2).
Proof.
  intros r t r' t' Hr Ht Hvr Hvt.
  destruct (b64decode_valid r' Hvr) as (img1 & H1).
  destruct (b64decode_valid t' Hvt) as (img2 & H2).
  exists img1, img2. split; [exact H1|]. split; [exact H2|].
  apply decode_images_ok. exists (JStr r'), (JStr t'). auto.
Qed.

Lemma valid_base64_accepted_witness :
  exists img1 img2,
    Base64.b64decode "QUI=" = Ok img1 /\ Base64.b64decode "REVG" = Ok img2
    /\ decode_images (JStr "data:image/png;base64,QUI=") (JStr "REVG") = Ok (img1, img2).
Proof.
  apply (valid_base64_accepted (JStr "data:image/png;base64,QUI=") (JStr "REVG"));
    reflexivity.
Defined.

(** X7. The decoder skips every character that is neither in the base64
    alphabet nor a pad character: an ASCII text (with line breaks, commas,
    blanks, ...) decodes to the same bytes, or fails with the same error,
    as the text without those characters. *)
Theorem b64decode_skips_foreign_characters :
  forall s : string,
    PyStr.is_ascii s = true ->
    Base64.b64decode s = Base64.b64decode (Outcome.base64_characters s).
Proof.
  intros s Hascii.
  assert (Hkeep : PyStr.is_ascii (Outcome.base64_characters s) = true).
  { induction s as [|c rest IH]; cbn in *; [reflexivity|].
    apply andb_true_iff in Hascii. destruct Hascii as [Hc Hrest].
    destruct (Base64.is_pad c); [cbn; rewrite Hc; cbn; auto|].
    destruct (Base64.value_of c); [cbn; rewrite Hc; cbn; auto | auto]. }
  unfold Base64.b64decode. rewrite Hascii, Hkeep.
  generalize 0 at 1 4 as quad_pos. generalize 0 at 1 3 as leftchar.
  generalize 0 as pads. generalize (@nil byte) as out.
  clear Hascii Hkeep.
  induction s as [|c rest IH]; intros out pads leftchar quad_pos; [reflexivity|].
  cbn [Outcome.base64_characters Base64.a2b_base64].
  destruct (Base64.is_pad c) eqn:Hp.
  - cbn [Base64.a2b_base64]. rewrite Hp.
    destruct (2 <=? quad_pos); [|apply IH].
    destruct (4 <=? quad_pos + (pads + 1)); [reflexivity | apply IH].
  - destruct (Base64.value_of c) as [v|] eqn:Hv; [|apply IH].
    cbn [Base64.a2b_base64]. rewrite Hp, Hv.
    destruct (quad_pos =? 0); [apply IH|].
    destruct (quad_pos =? 1); [apply IH|].
    destruct (quad_pos =? 2); apply IH.
Qed.

Lemma b64decode_skips_foreign_characters_witness :
  Base64.b64decode ("QU" +:+ String "010"%char "JD ") = Base64.b64decode "QUJD".
Proof.
  exact (b64decode_skips_foreign_characters ("QU" +:+ String "010"%char "JD ") eq_refl).
Defined.

Lemma sample_fields (r t : json) (verdict : result Verdict) (debug : bool) :
  Spec.fields (Sample.env (Ok (Sample.request r t)) verdict debug) r t.
Proof.
  exists {[ "reference_photo" := r; "today_photo" := t ]}.
  split; [reflexivity|]. split; reflexivity.
Defined.

(** X8. A field that starts with ["data:"] and has no comma is answered
    with status 400 and the error ["Invalid base64 image data: list index
    out of range"]: for [reference_photo] whatever the other field is, for
    [today_photo] when [reference_photo] passes the prefix step. *)
Theorem data_url_without_comma :
  forall (env : Env) (w : World) (r t : json) (s : string),
    Spec.fields env r t ->
    PyStr.startswith "data:" s = true -> PyStr.has_comma s = false ->
    r = JStr s \/ (t = JStr s /\ raises (strip_data_url r) = false) ->
    verify_faces env w =
      (Outcome.invalid_image (Exception "IndexError" "list index out of range"), w).
Proof.
  intros env w r t s Hf Hp Hc Hwhich.
  assert (Hnone : strip_data_url (JStr s)
                  = Raise (Exception "IndexError" "list index out of range")).
  { unfold strip_data_url. cbn [Py.startswith Py.split_comma mbind result_bind].
    rewrite Hp, split_comma_second, Hc. reflexivity. }
  assert (Hdec : decode_images r t
                 = Raise (Exception "IndexError" "list index out of range")).
  { unfold decode_images. destruct Hwhich as [Hr | (Ht & Hr)].
    - rewrite Hr, Hnone. reflexivity.
    - destruct (strip_data_url r) as [r'|e]; [|discriminate Hr].
      rewrite Ht, Hnone. reflexivity. }
  unfold verify_faces. rewrite (body_with_fields env r t w Hf), Hdec. reflexivity.
Qed.

Lemma data_url_without_comma_witness :
  verify_faces
    (Sample.env (Ok (Sample.request (JStr "data:image/jpeg;base64") (JInt 7)))
       (Ok Sample.same_person) false)
    Sample.world
  = (Outcome.invalid_image (Exception "IndexError" "list index out of range"),
     Sample.world).
Proof.
  apply (data_url_without_comma _ Sample.world
           (JStr "data:image/jpeg;base64") (JInt 7) "data:image/jpeg;base64").
  - apply sample_fields.
  - reflexivity.
  - reflexivity.
  - left. reflexivity.
Defined.



(** ** The 200 response *)

Lemma staged_success (env : Env) (w : World) (img1 img2 : list byte) (p1 p2 : string)
    (v : Verdict) :
  Spec.staged env img1 img2 p1 p2 ->
  deepface_verify env (Spec.staged_files w img1 img2 p1 p2) p1 p2 = Ok v ->
  PyFloat.is_zero (threshold v) = false ->
  (verify_faces env w).1 = Outcome.success_of v.
Proof.
  intros Hst Hcap Hnz.
  apply (staged_response env img1 img2 p1 p2 w _
           (mkWorld (Spec.staged_files w img1 img2 p1 p2)
                    (verify_calls w ++ [(p1, p2)])) Hst).
  unfold try_except. rewrite verify_and_score_run. cbn [files].
  rewrite Hcap. cbn zeta. unfold PyFloat.div. rewrite Hnz. reflexivity.
Qed.

(** X10. A 200 response is only produced from a successful call of the
    capability with a non-zero threshold, on the two staged files, and it
    is the response built from that verdict: its match entry is the
    capability's own decision. *)
Theorem ok_response_origin :
  forall (env : Env) (w : World),
    status (verify_faces env w).1 = 200 ->
    exists img1 img2 p1 p2 v,
      Spec.staged env img1 img2 p1 p2
      /\ deepface_verify env (Spec.staged_files w img1 img2 p1 p2) p1 p2 = Ok v
      /\ PyFloat.is_zero (threshold v) = false
      /\ (verify_faces env w).1 = Outcome.success_of v
      /\ body (verify_faces env w).1 !! "match" = Some (JBool (verified v)).
Proof.
  intros env w H200.
  destruct (unstaged_outcome env w)
    as [(img1 & img2 & p1 & p2 & Hst) | (resp & fs & Hv & Hs & _)].
  2:{ rewrite Hv in H200. cbn [fst] in H200. destruct Hs as [Hs | Hs]; lia. }
  exists img1, img2, p1, p2.
  destruct (response_when_staged env img1 img2 p1 p2 w Hst)
    as (resp & w1 & w2 & Hrun & _ & Hv).
  rewrite Hv in H200. cbn [fst] in H200.
  unfold try_except in Hrun. rewrite verify_and_score_run in Hrun.
  cbn [files] in Hrun. cbn zeta in Hrun.
  destruct (deepface_verify env (Spec.staged_files w img1 img2 p1 p2) p1 p2)
    as [v|e] eqn:Hcap.
  - destruct (PyFloat.is_zero (threshold v)) eqn:Hz.
    + exfalso. unfold PyFloat.div in Hrun. rewrite Hz in Hrun.
      injection Hrun as <- _. discriminate H200.
    + exists v. rewrite (staged_success env w img1 img2 p1 p2 v Hst Hcap Hz).
      repeat split; try assumption; reflexivity.
  - exfalso. unfold capability_failure in Hrun.
    destruct (_ || _); injection Hrun as <- _; discriminate H200.
Qed.

Lemma ok_response_origin_witness :
  exists img1 img2 p1 p2 v,
    Spec.staged (Sample.env (Ok Sample.good_request) (Ok Sample.same_person) false)
      img1 img2 p1 p2
    /\ deepface_verify (Sample.env (Ok Sample.good_request) (Ok Sample.same_person) false)
         (Spec.staged_files Sample.world img1 img2 p1 p2) p1 p2 = Ok v
    /\ PyFloat.is_zero (threshold v) = false
    /\ (verify_faces (Sample.env (Ok Sample.good_request) (Ok Sample.same_person) false)
          Sample.world).1 = Outcome.success_of v
    /\ body (verify_faces (Sample.env (Ok Sample.good_request) (Ok Sample.same_person) false)
               Sample.world).1 !! "match" = Some (JBool (verified v)).
Proof.
  apply (ok_response_origin
           (Sample.env (Ok Sample.good_request) (Ok Sample.same_person) false) Sample.world).
  reflexivity.
Defined.

(** ** Edge values of the confidence *)

Lemma round4_one : PyFloat.round4 PyFloat.one = PyFloat.one.
Proof. vm_compute. reflexivity. Qed.

Lemma clamp_of_nan : clamp_confidence S754_nan = PyFloat.one.
Proof. reflexivity. Qed.

Lemma clamp_of_zero (s : bool) : clamp_confidence (S754_zero s) = PyFloat.one.
Proof. destruct s; reflexivity. Qed.

(** X11. For a staged request on which the capability succeeds: when the
    threshold it returns is a NaN, or the distance is a NaN and the
    threshold is not zero, the comparison inside [min] is false and the
    response is the 200 response with confidence 1.0. *)
Theorem nan_gives_full_confidence :
  forall (env : Env) (w : World) (img1 img2 : list byte) (p1 p2 : string) (v : Verdict),
    Spec.staged env img1 img2 p1 p2 ->
    deepface_verify env (Spec.staged_files w img1 img2 p1 p2) p1 p2 = Ok v ->
    threshold v = S754_nan
    \/ (distance v = S754_nan /\ PyFloat.is_zero (threshold v) = false) ->
    status (verify_faces env w).1 = 200
    /\ body (verify_faces env w).1 !! "confidence" = Some (JFloat PyFloat.one).
Proof.
  intros env w img1 img2 p1 p2 v Hst Hcap Hnan.
  assert (Hnz : PyFloat.is_zero (threshold v) = false).
  { destruct Hnan as [Hn | (_ & Hn)]; [rewrite Hn; reflexivity | exact Hn]. }
  rewrite (staged_success env w img1 img2 p1 p2 v Hst Hcap Hnz).
  split; [reflexivity|].
  assert (Hratio : SFdiv PyFloat.prec PyFloat.emax (distance v) (threshold v) = S754_nan).
  { destruct Hnan as [Hn | (Hn & _)]; rewrite Hn; [|reflexivity].
    destruct (distance v); reflexivity. }
  unfold Outcome.success_of. rewrite Hratio, clamp_of_nan, round4_one. reflexivity.
Qed.

Lemma nan_gives_full_confidence_witness :
  body (verify_faces
          (Sample.env (Ok Sample.good_request)
             (Ok (mkVerdict false S754_nan Sample.half)) false)
          Sample.world).1 !! "confidence"
  = Some (JFloat PyFloat.one).
Proof.
  exact (proj2 (nan_gives_full_confidence _ Sample.world _ _ _ _
                  (mkVerdict false S754_nan Sample.half)
                  (sample_staged _ false) eq_refl (or_intror (conj eq_refl eq_refl)))).
Defined.

(** X12. A distance of zero gives confidence 1.0, for every threshold
    that is not zero. *)
Theorem zero_distance_full_confidence :
  forall (env : Env) (w : World) (img1 img2 : list byte) (p1 p2 : string) (v : Verdict),
    Spec.staged env img1 img2 p1 p2 ->
    deepface_verify env (Spec.staged_files w img1 img2 p1 p2) p1 p2 = Ok v ->
    PyFloat.is_zero (distance v) = true ->
    PyFloat.is_zero (threshold v) = false ->
    status (verify_faces env w).1 = 200
    /\ body (verify_faces env w).1 !! "confidence" = Some (JFloat PyFloat.one).
Proof.
  intros env w img1 img2 p1 p2 v Hst Hcap Hd Hnz.
  rewrite (staged_success env w img1 img2 p1 p2 v Hst Hcap Hnz).
  split; [reflexivity|].
  assert (Hclamp : clamp_confidence
                     (SFdiv PyFloat.prec PyFloat.emax (distance v) (threshold v))
                   = PyFloat.one).
  { destruct (distance v) as [sd | | |]; try discriminate Hd.
    destruct (threshold v) as [st | st | | st mt et]; try discriminate Hnz;
      cbn [SFdiv]; [apply clamp_of_zero | apply clamp_of_nan | apply clamp_of_zero]. }
  unfold Outcome.success_of. rewrite Hclamp, round4_one. reflexivity.
Qed.

Lemma zero_distance_full_confidence_witness :
  body (verify_faces
          (Sample.env (Ok Sample.good_request)
             (Ok (mkVerdict true PyFloat.zero Sample.half)) false)
          Sample.world).1 !! "confidence"
  = Some (JFloat PyFloat.one).
Proof.
  exact (proj2 (zero_distance_full_confidence _ Sample.world _ _ _ _
                  (mkVerdict true PyFloat.zero Sample.half)
                  (sample_staged _ false) eq_refl eq_refl eq_refl)).
Defined.

(** X13. The confidence of a response is always a multiple of one
    ten-thousandth between 0 and 1, as a binary64 number: [n / 10^4] for
    an integer [0 <= n <= 10^4]. *)
Theorem confidence_four_decimals :
  forall q : spec_float,
    exists n : Z,
      0 <= n <= 10000
      /\ PyFloat.round4 (clamp_confidence q) = Outcome.ten_thousandths n.
Proof.
  intros q. rewrite clamp_confidence_cases. cbn zeta.
  destruct (PyFloat.ltb (PyFloat.sub PyFloat.one q) PyFloat.one) eqn:H1.
  - destruct (PyFloat.ltb PyFloat.zero (PyFloat.sub PyFloat.one q)) eqn:H0.
    + destruct (ltb_zero_positive _ H0) as [Hx | (m & e & Hx)];
        rewrite Hx in *; [discriminate H1|].
      destruct (ltb_one_bound m e H1) as (He & Hm).
      pose proof (scaled4_bounds m e He Hm) as Hs.
      exists (PyFloat.scaled4 m e). split; [exact Hs|].
      unfold PyFloat.round4, Outcome.ten_thousandths.
      destruct (PyFloat.scaled4 m e); [reflexivity | reflexivity | lia].
    + exists 0. split; [lia | reflexivity].
  - exists 10000. split; [lia | vm_compute; reflexivity].
Qed.

(** ** Failures while staging and while removing *)

(** X14. When the first image is staged and creating the second temporary
    file fails, the response is the 500 server error for that failure, the
    capability is not called, and the first file, holding the decoded
    reference image, is left in the temporary directory. *)
Theorem second_file_failure_leaves_first :
  forall (env : Env) (w : World) (r t : json) (img1 img2 : list byte)
         (p1 : string) (e : exn),
    Spec.fields env r t ->
    decode_images r t = Ok (img1, img2) ->
    tmp_ref env = Ok p1 -> write_ref env = None ->
    tmp_today env = Raise e ->
    verify_faces env w
    = (server_error env e, mkWorld (<[p1 := img1]> (files w)) (verify_calls w))
    /\ files (verify_faces env w).2 !! p1 = Some img1.
Proof.
  intros env w r t img1 img2 p1 e Hf Hdec Hp1 Hw1 Hp2.
  assert (Hv : verify_faces env w
               = (server_error env e, mkWorld (<[p1 := img1]> (files w)) (verify_calls w))).
  { unfold verify_faces. rewrite (body_with_fields env r t w Hf), Hdec.
    rewrite run_bind. unfold named_temporary_file at 1. rewrite Hp1, Hw1.
    rewrite run_bind. unfold named_temporary_file at 1. rewrite Hp2.
    reflexivity. }
  split; [exact Hv|]. rewrite Hv. cbn. apply lookup_insert_eq.
Qed.

Lemma second_file_failure_leaves_first_witness :
  files (verify_faces
           (Sample.env_second_file_fails (Ok Sample.good_request) (Ok Sample.same_person))
           Sample.world).2 !! Sample.ref_path
  = Some ["A"; "B"; "C"]%byte.
Proof.
  refine (proj2 (second_file_failure_leaves_first
                   (Sample.env_second_file_fails (Ok Sample.good_request)
                      (Ok Sample.same_person))
                   Sample.world
                   (JStr "data:image/jpeg;base64,QUJD") (JStr "REVG")
                   ["A"; "B"; "C"]%byte ["D"; "E"; "F"]%byte
                   Sample.ref_path Sample.no_disk_space _ eq_refl eq_refl eq_refl eq_refl)).
  exists {[ "reference_photo" := JStr "data:image/jpeg;base64,QUJD";
            "today_photo" := JStr "REVG" ]}.
  split; [reflexivity|]. split; reflexivity.
Defined.

(** X15. When removing the first temporary file fails, the second removal
    is not attempted: both staged files are still in the temporary
    directory after the response. *)
Theorem failed_first_removal_leaves_both :
  forall (env : Env) (w : World) (img1 img2 : list byte) (p1 p2 : string) (e : exn),
    Spec.staged env img1 img2 p1 p2 ->
    unlink_error env p1 = Some e ->
    files (verify_faces env w).2 = Spec.staged_files w img1 img2 p1 p2.
Proof.
  intros env w img1 img2 p1 p2 e Hst He.
  rewrite (staged_world env img1 img2 p1 p2 w Hst), cleanup_run. cbn [snd].
  set (w0 := mkWorld _ _).
  assert (Hex : is_Some (files w0 !! p1)).
  { subst w0. cbn [files]. unfold Spec.staged_files.
    destruct (decide (p2 = p1)) as [-> | Hne].
    - rewrite lookup_insert_eq. eauto.
    - rewrite lookup_insert_ne by exact Hne. rewrite lookup_insert_eq. eauto. }
  destruct Hex as [c Hc].
  assert (Hfirst : unlink env p1 w0 = (Raise e, w0)).
  { unfold unlink. rewrite Hc, He. reflexivity. }
  rewrite Hfirst. reflexivity.
Qed.

Lemma failed_first_removal_leaves_both_witness :
  files (verify_faces
           (Sample.env_unlink_fails (Ok Sample.good_request) (Ok Sample.same_person))
           Sample.world).2
  = Spec.staged_files Sample.world ["A"; "B"; "C"]%byte ["D"; "E"; "F"]%byte
      Sample.ref_path Sample.today_path.
Proof.
  apply (failed_first_removal_leaves_both
           (Sample.env_unlink_fails (Ok Sample.good_request) (Ok Sample.same_person))
           Sample.world ["A"; "B"; "C"]%byte ["D"; "E"; "F"]%byte
           Sample.ref_path Sample.today_path
           (Exception "PermissionError"
              ("[Errno 13] Permission denied: '" +:+ Sample.ref_path +:+ "'"))).
  - exists (JStr "data:image/jpeg;base64,QUJD"), (JStr "REVG").
    split.
    + exists {[ "reference_photo" := JStr "data:image/jpeg;base64,QUJD";
                "today_photo" := JStr "REVG" ]}.
      split; [reflexivity|]. split; reflexivity.
    + split; [reflexivity|]. repeat split; reflexivity.
  - reflexivity.
Defined.

(** ** Payloads that are not objects *)

(** X16. A payload that is [true] or a non-zero number makes the
    membership test raise, and a list or string that holds both field
    names makes the subscript raise: the response is the 500 server error
    with the [TypeError] message, and nothing is staged or called. *)
Theorem malformed_payload_response :
  forall (env : Env) (w : World) (data : json),
    request_json env = Ok data ->
    (Py.truthy data = true -> Spec.is_container data = false ->
     verify_faces env w
     = (server_error env
          (Exception "TypeError"
             ("argument of type '" +:+ Py.type_name data +:+ "' is not iterable")), w))
    /\ (Spec.has_key data "reference_photo" = false ->
        Spec.holds data "reference_photo" = true ->
        Spec.holds data "today_photo" = true ->
        exists msg,
          verify_faces env w = (server_error env (Exception "TypeError" msg), w)).
Proof.
  intros env w data Hreq. unfold verify_faces, verify_faces_body.
  rewrite Hreq, run_bind_lift_ok. split.
  - intros Ht Hc.
    assert (Hm : missing_fields data
                 = Raise (Exception "TypeError"
                            ("argument of type '" +:+ Py.type_name data
                             +:+ "' is not iterable"))).
    { unfold missing_fields. rewrite Ht.
      destruct data; try discriminate Hc; try discriminate Ht; reflexivity. }
    rewrite Hm. reflexivity.
  - intros Hnk Hr Ht.
    assert (Hm : missing_fields data = Ok false).
    { unfold missing_fields.
      destruct data as [| b | z | f | s | l | d]; try discriminate Hr.
      - cbn in *. destruct (String.eqb_spec s "") as [-> | _]; [discriminate Hr|].
        cbn. rewrite Hr. cbn. rewrite Ht. reflexivity.
      - cbn in *. destruct l; [discriminate Hr|]. cbn [negb].
        cbn. cbn in Hr, Ht. rewrite Hr. cbn. rewrite Ht. reflexivity.
      - change (Spec.holds (JObj d) "reference_photo")
          with (Spec.has_key (JObj d) "reference_photo") in Hr.
        congruence. }
    rewrite Hm, run_bind_lift_ok.
    destruct data as [| b | z | f | s | l | d]; try discriminate Hr.
    + eexists. reflexivity.
    + eexists. reflexivity.
    + change (Spec.holds (JObj d) "reference_photo")
        with (Spec.has_key (JObj d) "reference_photo") in Hr.
      congruence.
Qed.

Lemma malformed_payload_response_witness :
  verify_faces (Sample.env (Ok (JInt 5)) (Ok Sample.same_person) false) Sample.world
  = (server_error (Sample.env (Ok (JInt 5)) (Ok Sample.same_person) false)
       (Exception "TypeError" "argument of type 'int' is not iterable"), Sample.world)
  /\ exists msg,
       verify_faces
         (Sample.env (Ok (JArr [JStr "reference_photo"; JStr "today_photo"]))
            (Ok Sample.same_person) false)
         Sample.world
       = (server_error
            (Sample.env (Ok (JArr [JStr "reference_photo"; JStr "today_photo"]))
               (Ok Sample.same_person) false)
            (Exception "TypeError" msg), Sample.world).
Proof.
  split.
  - exact (proj1 (malformed_payload_response
                    (Sample.env (Ok (JInt 5)) (Ok Sample.same_person) false)
                    Sample.world (JInt 5) eq_refl)
             eq_refl eq_refl).
  - exact (proj2 (malformed_payload_response
                    (Sample.env (Ok (JArr [JStr "reference_photo"; JStr "today_photo"]))
                       (Ok Sample.same_person) false)
                    Sample.world
                    (JArr [JStr "reference_photo"; JStr "today_photo"]) eq_refl)
             eq_refl eq_refl eq_refl).
Defined.

(** X17. The responses to a staged request carry no [traceback] entry,
    also when the service runs in debug mode: the stack trace is only
    added at the outer boundary, not to the errors of the capability. *)
Theorem staged_response_has_no_traceback :
  forall (env : Env) (w : World) (img1 img2 : list byte) (p1 p2 : string),
    Spec.staged env img1 img2 p1 p2 ->
    body (verify_faces env w).1 !! "traceback" = None.
Proof.
  intros env w img1 img2 p1 p2 Hst.
  destruct (response_when_staged env img1 img2 p1 p2 w Hst)
    as (resp & w1 & w2 & Hrun & _ & Hv).
  rewrite Hv. cbn [fst].
  unfold try_except in Hrun. rewrite verify_and_score_run in Hrun.
  cbn zeta in Hrun.
  destruct (deepface_verify env _ p1 p2) as [v|e].
  - destruct (PyFloat.div (distance v) (threshold v)) as [q|e].
    + injection Hrun as <- _. reflexivity.
    + unfold capability_failure in Hrun.
      destruct (_ || _); injection Hrun as <- _; reflexivity.
  - unfold capability_failure in Hrun.
    destruct (_ || _); injection Hrun as <- _; reflexivity.
Qed.

Lemma staged_response_has_no_traceback_witness :
  body (verify_faces (Sample.env (Ok Sample.good_request) (Raise Sample.model_missing) true)
          Sample.world).1 !! "traceback" = None.
Proof.
  exact (staged_response_has_no_traceback _ Sample.world _ _ _ _
           (sample_staged (Raise Sample.model_missing) true)).
Defined.
